(** * E-paper panel, touch digitizer and button input: a shallow embedding

    The development follows the Python sources

    - [TP_lib/gt1151.py]        (touch controller driver),
    - [TP_lib/epd2in13_V3.py]   (display driver with a mock mode),
    - [TP_lib/epd2in13_V4.py]   (adapter for the vendor display driver),
    - [display/button_input.py] (single button, short and long press),
    - [display/touch_handler.py] (touch interrupt polling thread).

    Python integers are [Z]; Python lists of integers are [list Z]; list
    objects that are shared and mutated in place live in a store indexed
    by references.  Hardware (I2C, SPI, GPIO, the clock) is an explicit
    part of the state: what the program sends is appended to a trace and
    what the hardware answers is read from a script held in the state. *)

From Stdlib Require Import ZArith Lia Bool.
From stdpp Require Import base option list strings gmap.

Local Open Scope Z_scope.

(** ** Python values that the claims talk about *)

(** Exceptions, as far as the modelled code can tell them apart: the only
    handler it ever writes is [except Exception], which catches every
    class below except [BaseExc] (KeyboardInterrupt, SystemExit, ...). *)
Inductive exn :=
| IndexError
| TypeError
| OSError
| UserExc        (* some subclass of Exception raised by user code *)
| BaseExc.       (* a BaseException that is not an Exception *)

Definition is_Exception (e : exn) : bool :=
  match e with
  | BaseExc => false
  | _ => true
  end.

(** The value a Python call hands back. *)
Inductive pyval :=
| PyNone
| PyBool (b : bool)
| PyInt (n : Z).

Definition is_pybool (v : pyval) : bool :=
  match v with
  | PyBool _ => true
  | _ => false
  end.

(** A callable supplied by the user of the library, as far as its caller
    can see: it returns or it raises. *)
Inductive callback :=
| Returns
| Raises (e : exn).

(** [[v] * n] on Python lists: a non-positive [n] gives the empty list. *)
Definition py_repeat (v : Z) (n : Z) : list Z := replicate (Z.to_nat n) v.

(** [int(a / b)] for Python integers [a] and a positive power of two [b]:
    the true division is exact in binary floating point while [|a| < 2^53],
    and [int] truncates towards zero. *)
Definition int_truediv (a b : Z) : Z := Z.quot a b.

(** ** A state monad with exceptions

    [St] is the state of the object at hand together with the part of the
    world it talks to.  A raised exception keeps the state reached so
    far: Python does not roll back the assignments made before the raise.
    [OutOfFuel] is the answer of a loop that was given too few iterations
    to finish. *)
Inductive result (A : Type) :=
| Ok (a : A)
| Raise (e : exn)
| OutOfFuel.
Arguments Ok {A} a.
Arguments Raise {A} e.
Arguments OutOfFuel {A}.

Definition M (St A : Type) : Type := St -> result A * St.

Definition ret {St A} (a : A) : M St A := fun s => (Ok a, s).
Definition raise {St A} (e : exn) : M St A := fun s => (Raise e, s).
Definition out_of_fuel {St A} : M St A := fun s => (OutOfFuel, s).
Definition bind {St A B} (m : M St A) (k : A -> M St B) : M St B :=
  fun s => match m s with
           | (Ok a, s') => k a s'
           | (Raise e, s') => (Raise e, s')
           | (OutOfFuel, s') => (OutOfFuel, s')
           end.
Definition get {St} : M St St := fun s => (Ok s, s).
Definition modify {St} (f : St -> St) : M St unit := fun s => (Ok tt, f s).

(** [try: m  except Exception as e: h e] *)
Definition try_except {St A} (m : M St A) (h : exn -> M St A) : M St A :=
  fun s => match m s with
           | (Raise e, s') => if is_Exception e then h e s' else (Raise e, s')
           | r => r
           end.

Notation "x <- m ;; k" := (bind m (fun x => k))
  (at level 100, m at next level, right associativity).
Notation "m ;;; k" := (bind m (fun _ => k))
  (at level 100, right associativity).

(** [for x in l: body x] *)
Fixpoint for_each {St A} (l : list A) (body : A -> M St unit) : M St unit :=
  match l with
  | [] => ret tt
  | i :: l' => body i ;;; for_each l' body
  end.

(** ** TP_lib/gt1151.py *)
Module GT1151.

(** *** Class constants *)
Definition I2C_BUS : Z := 1.
Definition I2C_ADDR : Z := 0x5D.
Definition I2C_ADDR_ALT : Z := 0x14.
Definition INT_PIN : Z := 27.
Definition RST_PIN : Z := 17.
Definition POINT_INFO : Z := 0x814E.
Definition POINT1_REG : Z := 0x814F.
Definition SCAN_DIR_DFT : Z := 0.
Definition X_MAX : Z := 250.
Definition Y_MAX : Z := 122.

(** *** Objects *)

(** A reference to a Python list object. *)
Definition loc := positive.

(** [GT_Development] and [GT_Old] have the same attributes: an integer and
    three references to list objects. *)
Record TouchState := mkTouchState {
  Touch : Z;
  X : loc;
  Y : loc;
  S : loc
}.

(** What the I2C device does on the next bus transaction. *)
Inductive reply :=
| I2cOk (data : list Z)    (* the call returns; [data] is what a read yields *)
| I2cErr.                  (* the call raises *)

Inductive event :=
| I2cWrite (addr cmd : Z) (data : list Z)   (* bus.write_i2c_block_data *)
| I2cRead (addr cmd len : Z)                (* bus.read_i2c_block_data *)
| SleepMs (ms : Z)                          (* time.sleep *)
| LogReadError (reg : Z)
| LogWriteError (reg : Z)
| LogTouchError.

Record state := mkState {
  mock_mode : bool;
  bus : bool;                      (* [self.bus] is not None *)
  i2c_addr : Z;
  scan_dir : Z;
  gt_dev : TouchState;
  gt_old : TouchState;
  heap : gmap loc (list Z);        (* the list objects *)
  wire : list reply;               (* answers of the device, next first *)
  trace : list event               (* what happened so far, oldest first *)
}.

Definition set_scan_dir (d : Z) (s : state) : state :=
  mkState (mock_mode s) (bus s) (i2c_addr s) d (gt_dev s) (gt_old s)
          (heap s) (wire s) (trace s).
Definition set_gt_dev (t : TouchState) (s : state) : state :=
  mkState (mock_mode s) (bus s) (i2c_addr s) (scan_dir s) t (gt_old s)
          (heap s) (wire s) (trace s).
Definition set_gt_old (t : TouchState) (s : state) : state :=
  mkState (mock_mode s) (bus s) (i2c_addr s) (scan_dir s) (gt_dev s) t
          (heap s) (wire s) (trace s).
Definition set_heap (h : gmap loc (list Z)) (s : state) : state :=
  mkState (mock_mode s) (bus s) (i2c_addr s) (scan_dir s) (gt_dev s) (gt_old s)
          h (wire s) (trace s).
Definition set_wire (w : list reply) (s : state) : state :=
  mkState (mock_mode s) (bus s) (i2c_addr s) (scan_dir s) (gt_dev s) (gt_old s)
          (heap s) w (trace s).
Definition emit (e : event) (s : state) : state :=
  mkState (mock_mode s) (bus s) (i2c_addr s) (scan_dir s) (gt_dev s) (gt_old s)
          (heap s) (wire s) (trace s ++ [e]).

Definition with_Touch (n : Z) (t : TouchState) : TouchState :=
  mkTouchState n (X t) (Y t) (S t).
Definition with_X (l : loc) (t : TouchState) : TouchState :=
  mkTouchState (Touch t) l (Y t) (S t).
Definition with_Y (l : loc) (t : TouchState) : TouchState :=
  mkTouchState (Touch t) (X t) l (S t).

Abbreviation M := (M state).

(** [for i in range(n): body i] *)
Definition for_range (n : Z) (body : nat -> M unit) : M unit :=
  for_each (seq 0 (Z.to_nat n)) body.

(** *** List objects *)

(** [l[i]] on a Python list value, [i] not negative. *)
Definition index (l : list Z) (i : nat) : M Z :=
  match l !! i with
  | Some v => ret v
  | None => raise IndexError
  end.

(** [obj[i]] where [obj] is a reference. *)
Definition load (r : loc) (i : nat) : M Z :=
  s <- get ;;
  match heap s !! r with
  | Some l => index l i
  | None => raise TypeError
  end.

(** [obj[i] = v] where [obj] is a reference: in place, IndexError when
    out of range. *)
Definition store (r : loc) (i : nat) (v : Z) : M unit :=
  s <- get ;;
  match heap s !! r with
  | Some l =>
      if decide (i < length l)%nat
      then modify (set_heap (<[r := <[i := v]> l]> (heap s)))
      else raise IndexError
  | None => raise TypeError
  end.

(** A new list object. *)
Definition alloc (l : list Z) : M loc :=
  s <- get ;;
  let r := fresh (dom (heap s)) in
  modify (set_heap (<[r := l]> (heap s))) ;;;
  ret r.

(** *** The bus *)

Definition bus_call (e : event) : M (list Z) :=
  fun s =>
    let s' := emit e s in
    match wire s with
    | I2cOk d :: w => (Ok d, set_wire w s')
    | I2cErr :: w => (Raise OSError, set_wire w s')
    | [] => (Raise OSError, s')
    end.

Definition sleep_ms (ms : Z) : M unit := modify (emit (SleepMs ms)).
Definition log (e : event) : M unit := modify (emit e).

Definition addr_high (reg_addr : Z) : Z := Z.land (Z.shiftr reg_addr 8) 0xFF.
Definition addr_low (reg_addr : Z) : Z := Z.land reg_addr 0xFF.

(** [_read_reg]: [None] on error. *)
Definition _read_reg (reg_addr : Z) (length : Z) : M (option (list Z)) :=
  s <- get ;;
  if mock_mode s || negb (bus s) then ret (Some (py_repeat 0 length))
  else
    try_except
      (bus_call (I2cWrite (i2c_addr s) (addr_high reg_addr) [addr_low reg_addr]) ;;;
       sleep_ms 1 ;;;
       data <- bus_call (I2cRead (i2c_addr s) (addr_high reg_addr) length) ;;
       ret (Some data))
      (fun _ => log (LogReadError reg_addr) ;;; ret None).

(** [_write_reg]: [True] on success. *)
Definition _write_reg (reg_addr : Z) (data : list Z) : M bool :=
  s <- get ;;
  if mock_mode s || negb (bus s) then ret true
  else
    try_except
      (bus_call (I2cWrite (i2c_addr s) (addr_high reg_addr)
                          (addr_low reg_addr :: data)) ;;;
       ret true)
      (fun _ => log (LogWriteError reg_addr) ;;; ret false).

(** *** Coordinates *)

Definition _map_x (raw_x : Z) : Z := int_truediv (raw_x * X_MAX) 1024.
Definition _map_y (raw_y : Z) : Z := int_truediv (raw_y * Y_MAX) 1024.

(** *** read_touch *)

(** Python truth value of an [Optional[List[int]]]. *)
Definition truthy (o : option (list Z)) : bool :=
  match o with
  | Some (_ :: _) => true
  | _ => false
  end.

Definition set_dev_Touch (n : Z) : M unit :=
  modify (fun s => set_gt_dev (with_Touch n (gt_dev s)) s).

(** The body of the [for i in range(touch_count)] loop. *)
Definition parse_point (point_data : list Z) (i : nat) : M unit :=
  let offset := (i * 8)%nat in
  b1 <- index point_data (offset + 1) ;;
  b2 <- index point_data (offset + 2) ;;
  let x := Z.lor b1 (Z.shiftl b2 8) in
  b3 <- index point_data (offset + 3) ;;
  b4 <- index point_data (offset + 4) ;;
  let y := Z.lor b3 (Z.shiftl b4 8) in
  s <- get ;;
  store (X (gt_dev s)) i (_map_x x) ;;;
  s <- get ;;
  store (Y (gt_dev s)) i (_map_y y).

(** The [try] block of [read_touch]. *)
Definition read_touch_body : M Z :=
  point_info <- _read_reg POINT_INFO 1 ;;
  match point_info with
  | None | Some [] => ret 0
  | Some (b :: _) =>
      let touch_count := Z.land b 0x0F in
      if (0 <? touch_count) && (touch_count <=? 5) then
        point_data <- _read_reg POINT1_REG (touch_count * 8) ;;
        if truthy point_data then
          set_dev_Touch touch_count ;;;
          for_range touch_count (parse_point (default [] point_data)) ;;;
          _write_reg POINT_INFO [0x00] ;;;
          ret touch_count
        else
          set_dev_Touch 0 ;;; ret 0
      else
        set_dev_Touch 0 ;;; ret 0
  end.

Definition read_touch : M Z :=
  s <- get ;;
  if mock_mode s then
    set_dev_Touch 0 ;;;
    xs <- alloc (py_repeat 0 5) ;;
    modify (fun s => set_gt_dev (with_X xs (gt_dev s)) s) ;;;
    ys <- alloc (py_repeat 0 5) ;;
    modify (fun s => set_gt_dev (with_Y ys (gt_dev s)) s) ;;;
    ret 0
  else
    try_except read_touch_body
      (fun _ => log LogTouchError ;;; set_dev_Touch 0 ;;; ret 0).

(** *** scan *)

Definition scan (scan_dir : Z) : M Z :=
  modify (set_scan_dir scan_dir) ;;;
  s <- get ;;
  x0 <- load (X (gt_dev s)) 0 ;;
  store (X (gt_old s)) 0 x0 ;;;
  s <- get ;;
  y0 <- load (Y (gt_dev s)) 0 ;;
  store (Y (gt_old s)) 0 y0 ;;;
  modify (fun s => set_gt_old (with_Touch (Touch (gt_dev s)) (gt_old s)) s) ;;;
  read_touch.

(** *** Construction

    [GT_Development()] and [GT_Old()] each make their own three lists, so
    a freshly built driver holds six distinct list objects. *)
Definition fresh_heap : gmap loc (list Z) :=
  <[1%positive := py_repeat 0 5]> (<[2%positive := py_repeat 0 5]>
  (<[3%positive := py_repeat 0 5]> (<[4%positive := py_repeat 0 5]>
  (<[5%positive := py_repeat 0 5]> (<[6%positive := py_repeat 0 5]> ∅))))).

Definition init_state (mock has_bus : bool) (w : list reply) : state :=
  mkState mock has_bus I2C_ADDR SCAN_DIR_DFT
          (mkTouchState 0 1%positive 2%positive 3%positive)
          (mkTouchState 0 4%positive 5%positive 6%positive)
          fresh_heap w [].

(** The state after the bus events [evs], with the script [w] left. *)
Definition sent (evs : list event) (w : list reply) (s : state) : state :=
  mkState (mock_mode s) (bus s) (i2c_addr s) (scan_dir s) (gt_dev s) (gt_old s)
          (heap s) w (trace s ++ evs).

(** The raw coordinates of touch [i] in the point data:
    [bytes[offset+1] | bytes[offset+2] << 8] and
    [bytes[offset+3] | bytes[offset+4] << 8] with [offset = i*8]. *)
Definition raw_x (bytes : list Z) (i : nat) : option Z :=
  match bytes !! (i * 8 + 1)%nat, bytes !! (i * 8 + 2)%nat with
  | Some b1, Some b2 => Some (Z.lor b1 (Z.shiftl b2 8))
  | _, _ => None
  end.
Definition raw_y (bytes : list Z) (i : nat) : option Z :=
  match bytes !! (i * 8 + 3)%nat, bytes !! (i * 8 + 4)%nat with
  | Some b3, Some b4 => Some (Z.lor b3 (Z.shiftl b4 8))
  | _, _ => None
  end.

(** The bus traffic of a register read that goes through. *)
Definition read_events (s : state) (reg_addr length : Z) : list event :=
  [I2cWrite (i2c_addr s) (addr_high reg_addr) [addr_low reg_addr];
   SleepMs 1;
   I2cRead (i2c_addr s) (addr_high reg_addr) length].

(** The value read through a reference. *)
Definition deref (s : state) (r : loc) : list Z := default [] (heap s !! r).

(** A touch frame as a value: the count and the contents of the lists. *)
Definition frame (s : state) (t : TouchState) : Z * list Z * list Z * list Z :=
  (Touch t, deref s (X t), deref s (Y t), deref s (S t)).

(** A script for tests: two fingers reported by the controller: status byte, two coordinate
    pairs, padding. *)
Definition two_fingers : list reply :=
  [I2cOk []; I2cOk [0x82];
   I2cOk []; I2cOk [0x00; 0x00; 0x02; 0x00; 0x01; 0; 0; 0;
                    0x01; 0xFF; 0x03; 0x32; 0x00; 0; 0; 0];
   I2cOk []].

(** *** Frame conditions

    [safe P s]: none of the list objects in [P] is a coordinate list of
    [gt_dev], and all of them exist.  [keeps P s s']: from [s] to [s'] the
    object [gt_old] and the list objects in [P] are unchanged. *)
Definition safe (P : gset loc) (s : state) : Prop :=
  (X (gt_dev s) ∉ P) /\ (Y (gt_dev s) ∉ P) /\ P ⊆ dom (heap s).

Definition keeps (P : gset loc) (s s' : state) : Prop :=
  gt_old s' = gt_old s /\
  (forall r, r ∈ P -> heap s' !! r = heap s !! r) /\
  safe P s'.

Definition benign {A} (r : result A) : Prop :=
  match r with
  | Ok _ => True
  | Raise e => is_Exception e = true
  | OutOfFuel => False
  end.

Definition post {A} (P : gset loc) (s : state) (o : result A * state) : Prop :=
  keeps P s (snd o) /\ benign (fst o).

(** *** get_point *)

Definition get_point : M (Z * Z * bool) :=
  s <- get ;;
  if Touch (gt_dev s) >? 0 then
    x <- load (X (gt_dev s)) 0 ;;
    y <- load (Y (gt_dev s)) 0 ;;
    ret (x, y, true)
  else ret (0, 0, false).

(** *** __init__ and _init_hardware

    What the world answers while the driver is built: whether
    [smbus.SMBus(1)] opens, whether the probe [read_byte_data] of the
    primary and of the alternative address answers, and whether the GPIO
    set-up goes through.  Each of them fails by raising. *)
Record probe := mkProbe {
  smbus_opens : bool;
  primary_answers : bool;
  alt_answers : bool;
  gpio_setup_ok : bool
}.

(** The driver with its two fresh state objects. *)
Definition built (mock has_bus : bool) (addr : Z) (w : list reply) : state :=
  mkState mock has_bus addr SCAN_DIR_DFT
          (mkTouchState 0 1%positive 2%positive 3%positive)
          (mkTouchState 0 4%positive 5%positive 6%positive)
          fresh_heap w [].

(** [hw_available] is the module flag [HW_AVAILABLE]: without the
    libraries the name [smbus] is not bound and its use raises. *)
Definition _init_hardware (hw_available : bool) (p : probe)
    (w : list reply) : state :=
  if negb (hw_available && smbus_opens p) then
    (* the outer handler, before any address was tried *)
    built true false I2C_ADDR w
  else if primary_answers p then
    if gpio_setup_ok p then built false true I2C_ADDR w
    else built true false I2C_ADDR w
  else if alt_answers p then
    if gpio_setup_ok p then built false true I2C_ADDR_ALT w
    else built true false I2C_ADDR_ALT w
  else
    built true false I2C_ADDR_ALT w.

Definition __init__ (mock_mode : option bool) (hw_available : bool)
    (p : probe) (w : list reply) : state :=
  if default (negb hw_available) mock_mode then built true false I2C_ADDR w
  else _init_hardware hw_available p w.

(** What a register read yields from the device script: the data of the
    second transaction when both go through. *)
Definition answer (w : list reply) : option (list Z) :=
  match w with
  | I2cOk _ :: I2cOk d :: _ => Some d
  | _ => None
  end.

(** A list object of [n] entries behind the reference [r]. *)
Definition sized (s : state) (r : loc) (n : nat) : Prop :=
  exists l, heap s !! r = Some l /\ length l = n.

End GT1151.

(** ** TP_lib/epd2in13_V3.py *)
Module EPD_V3.

Definition WIDTH : Z := 122.
Definition HEIGHT : Z := 250.
Definition FULL_UPDATE : Z := 0.
Definition PART_UPDATE : Z := 1.
Definition RST_PIN : Z := 17.
Definition DC_PIN : Z := 25.
Definition CS_PIN : Z := 8.
Definition BUSY_PIN : Z := 24.

Inductive event :=
| GpioOutput (pin value : Z)       (* GPIO.output *)
| GpioInput (pin : Z)              (* GPIO.input *)
| SpiWritebytes (data : list Z)    (* one call of spi.writebytes *)
| Sleep (ms : Z)                   (* time.sleep, in milliseconds *)
| LogWarningBusyTimeout.

(** The driver object and the hardware around it.  [gpio_in n] is what the
    [n]-th call of [GPIO.input] returns; [clock] is what [time.time()]
    returns, in milliseconds; a sleep advances it by the time asked for.
    Debug and info log lines are left out of the trace. *)
Record state := mkState {
  mock_mode : bool;
  spi : bool;                 (* [self.spi] is an open device *)
  width : Z;
  height : Z;
  gpio_in : nat -> Z;
  gpio_reads : nat;
  clock : Z;
  trace : list event
}.

Definition emit (e : event) (s : state) : state :=
  mkState (mock_mode s) (spi s) (width s) (height s) (gpio_in s)
          (gpio_reads s) (clock s) (trace s ++ [e]).
Definition tick (ms : Z) (s : state) : state :=
  mkState (mock_mode s) (spi s) (width s) (height s) (gpio_in s)
          (gpio_reads s) (clock s + ms) (trace s).
Definition count_read (s : state) : state :=
  mkState (mock_mode s) (spi s) (width s) (height s) (gpio_in s)
          (Datatypes.S (gpio_reads s)) (clock s) (trace s).

(** [EPD(mock_mode=...)] after a construction in which the hardware, when
    asked for, could be opened. *)
Definition init_state (mock : bool) (line : nat -> Z) (now : Z) : state :=
  mkState mock (negb mock) WIDTH HEIGHT line 0 now [].

Abbreviation M := (M state).

Definition sleep (ms : Z) : M unit :=
  modify (fun s => tick ms (emit (Sleep ms) s)).
Definition time : M Z := s <- get ;; ret (clock s).

Definition _digital_write (pin value : Z) : M unit :=
  s <- get ;;
  if negb (mock_mode s) then modify (emit (GpioOutput pin value)) else ret tt.

Definition _digital_read (pin : Z) : M Z :=
  s <- get ;;
  if mock_mode s then ret 0
  else modify (fun s => count_read (emit (GpioInput pin) s)) ;;;
       ret (gpio_in s (gpio_reads s)).

(** The argument of [_spi_writebyte] is a list or a single integer. *)
Inductive spi_arg :=
| Bytes (l : list Z)
| Byte (b : Z).

Definition _spi_writebyte (data : spi_arg) : M unit :=
  s <- get ;;
  if mock_mode s || negb (spi s) then ret tt
  else match data with
       | Bytes l => modify (emit (SpiWritebytes l))
       | Byte b => modify (emit (SpiWritebytes [b]))
       end.

Definition _send_command (command : Z) : M unit :=
  s <- get ;;
  if mock_mode s then ret tt
  else
    _digital_write DC_PIN 0 ;;;
    _digital_write CS_PIN 0 ;;;
    _spi_writebyte (Bytes [command]) ;;;
    _digital_write CS_PIN 1.

Definition _send_data (data : Z) : M unit :=
  s <- get ;;
  if mock_mode s then ret tt
  else
    _digital_write DC_PIN 1 ;;;
    _digital_write CS_PIN 0 ;;;
    _spi_writebyte (Bytes [data]) ;;;
    _digital_write CS_PIN 1.

Definition _send_data_bulk (data : list Z) : M unit :=
  s <- get ;;
  if mock_mode s then ret tt
  else
    _digital_write DC_PIN 1 ;;;
    _digital_write CS_PIN 0 ;;;
    _spi_writebyte (Bytes data) ;;;
    _digital_write CS_PIN 1.

(** The [while] loop of [_wait_until_idle]; [true] when it left through
    [break]. *)
Fixpoint busy_loop (fuel : nat) (timeout : Z) : M bool :=
  match fuel with
  | O => out_of_fuel
  | Datatypes.S fuel' =>
      v <- _digital_read BUSY_PIN ;;
      if v =? 1 then
        sleep 10 ;;;
        now <- time ;;
        if now >? timeout then
          modify (emit LogWarningBusyTimeout) ;;; ret true
        else busy_loop fuel' timeout
      else ret false
  end.

Definition _wait_until_idle (fuel : nat) : M pyval :=
  s <- get ;;
  if mock_mode s then
    sleep 10 ;;; ret PyNone
  else
    now <- time ;;
    let timeout := now + 10000 in
    busy_loop fuel timeout ;;;
    sleep 10 ;;;
    ret PyNone.

Definition Clear (fuel : nat) (color : Z) : M pyval :=
  s <- get ;;
  if mock_mode s then
    sleep 100 ;;; ret PyNone
  else
    _send_command 0x24 ;;;
    s <- get ;;
    _send_data_bulk (py_repeat color (height s * width s / 8)) ;;;
    _send_command 0x22 ;;;
    _send_data 0xf7 ;;;
    _send_command 0x20 ;;;
    _wait_until_idle fuel ;;;
    ret PyNone.

Definition displayPartial (fuel : nat) (image_buffer : list Z) : M pyval :=
  s <- get ;;
  if mock_mode s then
    sleep 50 ;;; ret PyNone
  else
    _send_command 0x24 ;;;
    _send_data_bulk image_buffer ;;;
    _send_command 0x22 ;;;
    _send_data 0x0F ;;;
    _send_command 0x20 ;;;
    _wait_until_idle fuel ;;;
    ret PyNone.

Definition displayPartBaseImage (fuel : nat) (image_buffer : list Z) : M pyval :=
  s <- get ;;
  if mock_mode s then
    sleep 50 ;;; ret PyNone
  else
    _send_command 0x24 ;;;
    _send_data_bulk image_buffer ;;;
    _send_command 0x26 ;;;
    _send_data_bulk image_buffer ;;;
    _send_command 0x22 ;;;
    _send_data 0xf7 ;;;
    _send_command 0x20 ;;;
    _wait_until_idle fuel ;;;
    ret PyNone.

(** The state after the events [evs], which took [ms] milliseconds and
    [reads] samples of the input pins. *)
Definition advance (evs : list event) (ms : Z) (reads : nat) (s : state) : state :=
  mkState (mock_mode s) (spi s) (width s) (height s) (gpio_in s)
          (gpio_reads s + reads) (clock s + ms) (trace s ++ evs).

(** The events of the busy loop that found the line busy [k] times and
    then either saw it idle or gave up. *)
Definition busy_events (k : nat) (gave_up : bool) : list event :=
  concat (replicate k [GpioInput BUSY_PIN; Sleep 10])
  ++ (if gave_up then [LogWarningBusyTimeout] else [GpioInput BUSY_PIN]).

(** What a command or a bulk transfer looks like on the wires. *)
Definition command_frame (c : Z) : list event :=
  [GpioOutput DC_PIN 0; GpioOutput CS_PIN 0; SpiWritebytes [c];
   GpioOutput CS_PIN 1].
Definition data_frame (l : list Z) : list event :=
  [GpioOutput DC_PIN 1; GpioOutput CS_PIN 0; SpiWritebytes l;
   GpioOutput CS_PIN 1].

(** The events of a busy-wait: reads of the busy line, sleeps and the
    timeout warning. *)
Definition is_wait_event (e : event) : bool :=
  match e with
  | GpioInput p => p =? BUSY_PIN
  | Sleep _ => true
  | LogWarningBusyTimeout => true
  | _ => false
  end.

(** The payloads of the SPI transfers of a trace, in order. *)
Definition spi_payloads (t : list event) : list (list Z) :=
  omap (fun e => match e with SpiWritebytes l => Some l | _ => None end) t.

Definition warned (t : list event) : bool :=
  existsb (fun e => match e with LogWarningBusyTimeout => true | _ => false end) t.

(** *** _reset, init and sleep *)

Definition _reset : M unit :=
  s <- get ;;
  if mock_mode s then sleep 100
  else
    _digital_write RST_PIN 1 ;;;
    sleep 200 ;;;
    _digital_write RST_PIN 0 ;;;
    sleep 2 ;;;
    _digital_write RST_PIN 1 ;;;
    sleep 200.

Definition _init_full (fuel : nat) : M unit :=
  _send_command 0x12 ;;;
  _wait_until_idle fuel ;;;
  _send_command 0x01 ;;;
  _send_data 0xF9 ;;; _send_data 0x00 ;;; _send_data 0x00 ;;;
  _send_command 0x11 ;;;
  _send_data 0x03 ;;;
  _send_command 0x44 ;;;
  _send_data 0x00 ;;; _send_data 0x0F ;;;
  _send_command 0x45 ;;;
  _send_data 0xF9 ;;; _send_data 0x00 ;;; _send_data 0x00 ;;; _send_data 0x00 ;;;
  _send_command 0x3C ;;;
  _send_data 0x03 ;;;
  _send_command 0x2C ;;;
  _send_data 0x55 ;;;
  _send_command 0x03 ;;;
  _send_data 0x15 ;;;
  _send_command 0x04 ;;;
  _send_data 0x41 ;;; _send_data 0xA8 ;;; _send_data 0x32 ;;;
  _send_command 0x3A ;;;
  _send_data 0x30 ;;;
  _send_command 0x3B ;;;
  _send_data 0x0A ;;;
  _wait_until_idle fuel ;;;
  ret tt.

(** The 48 bytes of the partial-update waveform, one list per line of the
    source's literal (six lines of seven bytes and a last line of six). *)
Definition lut_vcom_dc : list Z :=
  [0x00; 0x00; 0x00; 0x00; 0x00; 0x00; 0x00] ++
  [0x00; 0x00; 0x00; 0x00; 0x00; 0x00; 0x00] ++
  [0x00; 0x01; 0x20; 0x20; 0x00; 0x00; 0x01] ++
  [0x00; 0x00; 0x00; 0x00; 0x00; 0x00; 0x00] ++
  [0x00; 0x00; 0x00; 0x00; 0x00; 0x00; 0x00] ++
  [0x00; 0x00; 0x00; 0x00; 0x00; 0x00; 0x00] ++
  [0x00; 0x00; 0x00; 0x00; 0x00; 0x00].

Definition _init_part (fuel : nat) : M unit :=
  _send_command 0x2C ;;;
  _send_data 0x26 ;;;
  _wait_until_idle fuel ;;;
  _send_command 0x32 ;;;
  for_each lut_vcom_dc _send_data ;;;
  _send_command 0x37 ;;;
  _send_data 0x00 ;;; _send_data 0x00 ;;; _send_data 0x00 ;;; _send_data 0x00 ;;;
  _send_data 0x40 ;;; _send_data 0x00 ;;; _send_data 0x00 ;;;
  _send_command 0x22 ;;;
  _send_data 0xC0 ;;;
  _send_command 0x20 ;;;
  _wait_until_idle fuel ;;;
  _send_command 0x3C ;;;
  _send_data 0x01.

(** [init]: 0, or -1 from the handler (whose error log line is not part
    of the trace). *)
Definition init (fuel : nat) (update_mode : Z) : M pyval :=
  s <- get ;;
  if mock_mode s then
    sleep 100 ;;; ret (PyInt 0)
  else
    try_except
      (_reset ;;;
       _wait_until_idle fuel ;;;
       (if update_mode =? FULL_UPDATE then _init_full fuel
        else _init_part fuel) ;;;
       ret (PyInt 0))
      (fun _ => ret (PyInt (-1))).

(** The method [sleep] of the driver (deep sleep); the name [sleep] is
    taken by [time.sleep] above. *)
Definition deep_sleep : M pyval :=
  s <- get ;;
  if mock_mode s then ret PyNone
  else
    _send_command 0x10 ;;;
    _send_data 0x01 ;;;
    sleep 100 ;;;
    ret PyNone.

(** *** Sequences of calls *)

Inductive operation :=
| OpInit (update_mode : Z)
| OpClear (color : Z)
| OpDisplayPartial (image_buffer : list Z)
| OpDisplayPartBaseImage (image_buffer : list Z)
| OpSleep.

Definition perform (fuel : nat) (op : operation) : M pyval :=
  match op with
  | OpInit update_mode => init fuel update_mode
  | OpClear color => Clear fuel color
  | OpDisplayPartial image_buffer => displayPartial fuel image_buffer
  | OpDisplayPartBaseImage image_buffer => displayPartBaseImage fuel image_buffer
  | OpSleep => deep_sleep
  end.

(** The calls one after the other, the values they return dropped. *)
Definition session (fuel : nat) (ops : list operation) : M unit :=
  for_each ops (fun op => perform fuel op ;;; ret tt).



Definition is_sleep (e : event) : bool :=
  match e with Sleep _ => true | _ => false end.



End EPD_V3.

(** ** TP_lib/epd2in13_V4.py

    The adapter talks to the hardware only through the module [epdconfig],
    which is not part of the sources at hand: each of its functions is an
    event of the trace, [digital_read] answers from a script, and the pin
    numbers it exports are fields of the driver object, as in [__init__]. *)
Module EPD_V4.

Inductive event :=
| DigitalWrite (pin value : Z)     (* epdconfig.digital_write *)
| DigitalRead (pin : Z)            (* epdconfig.digital_read *)
| SpiWritebyte (data : list Z)     (* epdconfig.spi_writebyte *)
| SpiWritebyte2 (data : list Z)    (* epdconfig.spi_writebyte2 *)
| DelayMs (ms : Z).                (* epdconfig.delay_ms *)

Record state := mkState {
  reset_pin : Z;
  dc_pin : Z;
  busy_pin : Z;
  cs_pin : Z;
  width : Z;
  height : Z;
  pin_in : nat -> Z;          (* what the n-th [digital_read] returns *)
  pin_reads : nat;
  trace : list event
}.

Definition emit (e : event) (s : state) : state :=
  mkState (reset_pin s) (dc_pin s) (busy_pin s) (cs_pin s) (width s) (height s)
          (pin_in s) (pin_reads s) (trace s ++ [e]).
Definition count_read (s : state) : state :=
  mkState (reset_pin s) (dc_pin s) (busy_pin s) (cs_pin s) (width s) (height s)
          (pin_in s) (Datatypes.S (pin_reads s)) (trace s).

(** [EPD()], given the four pin numbers of [epdconfig]. *)
Definition init_state (rst dc busy cs : Z) (line : nat -> Z) : state :=
  mkState rst dc busy cs 122 250 line 0 [].

Abbreviation M := (M state).

Definition digital_write (pin value : Z) : M unit :=
  modify (emit (DigitalWrite pin value)).
Definition digital_read (pin : Z) : M Z :=
  s <- get ;;
  modify (fun s => count_read (emit (DigitalRead pin) s)) ;;;
  ret (pin_in s (pin_reads s)).
Definition spi_writebyte (data : list Z) : M unit :=
  modify (emit (SpiWritebyte data)).
Definition spi_writebyte2 (data : list Z) : M unit :=
  modify (emit (SpiWritebyte2 data)).
Definition delay_ms (ms : Z) : M unit :=
  modify (emit (DelayMs ms)).

Definition send_command (command : Z) : M unit :=
  s <- get ;;
  digital_write (dc_pin s) 0 ;;;
  digital_write (cs_pin s) 0 ;;;
  spi_writebyte [command] ;;;
  digital_write (cs_pin s) 1.

Definition send_data (data : Z) : M unit :=
  s <- get ;;
  digital_write (dc_pin s) 1 ;;;
  digital_write (cs_pin s) 0 ;;;
  spi_writebyte [data] ;;;
  digital_write (cs_pin s) 1.

Definition send_data2 (data : list Z) : M unit :=
  s <- get ;;
  digital_write (dc_pin s) 1 ;;;
  digital_write (cs_pin s) 0 ;;;
  spi_writebyte2 data ;;;
  digital_write (cs_pin s) 1.

(** [while digital_read(busy_pin) == 1: delay_ms(10)]: no deadline. *)
Fixpoint ReadBusy (fuel : nat) : M pyval :=
  match fuel with
  | O => out_of_fuel
  | Datatypes.S fuel' =>
      s <- get ;;
      v <- digital_read (busy_pin s) ;;
      if v =? 1 then delay_ms 10 ;;; ReadBusy fuel'
      else ret PyNone
  end.

Definition TurnOnDisplay (fuel : nat) : M pyval :=
  send_command 0x22 ;;;
  send_data 0xf7 ;;;
  send_command 0x20 ;;;
  ReadBusy fuel.

Definition displayPartBaseImage (fuel : nat) (image : list Z) : M pyval :=
  send_command 0x24 ;;;
  send_data2 image ;;;
  send_command 0x26 ;;;
  send_data2 image ;;;
  TurnOnDisplay fuel.

Definition linewidth (width : Z) : Z :=
  if width mod 8 =? 0 then int_truediv width 8
  else int_truediv width 8 + 1.

Definition Clear (fuel : nat) (color : Z) : M pyval :=
  s <- get ;;
  send_command 0x24 ;;;
  send_data2 (py_repeat color (height s * linewidth (width s))) ;;;
  TurnOnDisplay fuel.

(** *** getbuffer

    The image library is outside the program: an image is any type with a
    size, and the three library calls are arbitrary functions. *)
Section Getbuffer.
Context {Image : Type}.
Variable size : Image -> Z * Z.
Variable convert_1 : Image -> Image.            (* img.convert("1") *)
Variable rotate_90_expand : Image -> Image.     (* img.rotate(90, expand=True) *)
Variable tobytes_raw : Image -> list Z.         (* bytearray(img.tobytes("raw")) *)

Definition getbuffer (s : state) (image : Image) : list Z :=
  let '(imwidth, imheight) := size image in
  if (imwidth =? width s) && (imheight =? height s) then
    tobytes_raw (convert_1 image)
  else if (imwidth =? height s) && (imheight =? width s) then
    tobytes_raw (convert_1 (rotate_90_expand image))
  else
    py_repeat 0x00 (int_truediv (width s) 8 * height s).
End Getbuffer.

Definition command_frame (s : state) (c : Z) : list event :=
  [DigitalWrite (dc_pin s) 0; DigitalWrite (cs_pin s) 0; SpiWritebyte [c];
   DigitalWrite (cs_pin s) 1].
Definition data_frame (s : state) (b : Z) : list event :=
  [DigitalWrite (dc_pin s) 1; DigitalWrite (cs_pin s) 0; SpiWritebyte [b];
   DigitalWrite (cs_pin s) 1].
Definition bulk_frame (s : state) (l : list Z) : list event :=
  [DigitalWrite (dc_pin s) 1; DigitalWrite (cs_pin s) 0; SpiWritebyte2 l;
   DigitalWrite (cs_pin s) 1].

(** The state after the events [evs] with [reads] samples of the pins. *)
Definition advance (evs : list event) (reads : nat) (s : state) : state :=
  mkState (reset_pin s) (dc_pin s) (busy_pin s) (cs_pin s) (width s) (height s)
          (pin_in s) (pin_reads s + reads) (trace s ++ evs).

(** The events of [ReadBusy] that found the line busy [k] times. *)
Definition busy_wait (s : state) (k : nat) : list event :=
  concat (replicate k [DigitalRead (busy_pin s); DelayMs 10])
  ++ [DigitalRead (busy_pin s)].

(** The payloads of the bulk transfers of a trace, in order. *)
Definition bulk_payloads (t : list event) : list (list Z) :=
  omap (fun e => match e with SpiWritebyte2 l => Some l | _ => None end) t.

(** *** The other operations of the adapter *)

Definition reset : M unit :=
  s <- get ;;
  digital_write (reset_pin s) 1 ;;;
  delay_ms 20 ;;;
  digital_write (reset_pin s) 0 ;;;
  delay_ms 2 ;;;
  digital_write (reset_pin s) 1 ;;;
  delay_ms 20.


Definition TurnOnDisplayPart (fuel : nat) : M pyval :=
  send_command 0x22 ;;;
  send_data 0xff ;;;
  send_command 0x20 ;;;
  ReadBusy fuel.

Definition SetWindow (x_start y_start x_end y_end : Z) : M unit :=
  send_command 0x44 ;;;
  send_data (Z.land (Z.shiftr x_start 3) 0xFF) ;;;
  send_data (Z.land (Z.shiftr x_end 3) 0xFF) ;;;
  send_command 0x45 ;;;
  send_data (Z.land y_start 0xFF) ;;;
  send_data (Z.land (Z.shiftr y_start 8) 0xFF) ;;;
  send_data (Z.land y_end 0xFF) ;;;
  send_data (Z.land (Z.shiftr y_end 8) 0xFF).

Definition SetCursor (x y : Z) : M unit :=
  send_command 0x4E ;;;
  send_data (Z.land x 0xFF) ;;;
  send_command 0x4F ;;;
  send_data (Z.land y 0xFF) ;;;
  send_data (Z.land (Z.shiftr y 8) 0xFF).

(** [init]; [module_init] is what [epdconfig.module_init()] returns. *)
Definition init (fuel : nat) (module_init : Z) : M pyval :=
  if negb (module_init =? 0) then ret (PyInt (-1))
  else
    reset ;;;
    ReadBusy fuel ;;;
    send_command 0x12 ;;;
    ReadBusy fuel ;;;
    send_command 0x01 ;;;
    send_data 0xf9 ;;; send_data 0x00 ;;; send_data 0x00 ;;;
    send_command 0x11 ;;;
    send_data 0x03 ;;;
    s <- get ;;
    SetWindow 0 0 (width s - 1) (height s - 1) ;;;
    SetCursor 0 0 ;;;
    send_command 0x3c ;;;
    send_data 0x05 ;;;
    send_command 0x21 ;;;
    send_data 0x00 ;;; send_data 0x80 ;;;
    send_command 0x18 ;;;
    send_data 0x80 ;;;
    ReadBusy fuel ;;;
    ret (PyInt 0).



Definition displayPartial (fuel : nat) (image : list Z) : M pyval :=
  s <- get ;;
  digital_write (reset_pin s) 0 ;;;
  delay_ms 1 ;;;
  digital_write (reset_pin s) 1 ;;;
  send_command 0x3C ;;;
  send_data 0x80 ;;;
  send_command 0x01 ;;;
  send_data 0xF9 ;;; send_data 0x00 ;;; send_data 0x00 ;;;
  send_command 0x11 ;;;
  send_data 0x03 ;;;
  SetWindow 0 0 (width s - 1) (height s - 1) ;;;
  SetCursor 0 0 ;;;
  send_command 0x24 ;;;
  send_data2 image ;;;
  TurnOnDisplayPart fuel.

(** The payloads of the single-byte transfers of a trace, in order. *)
Definition byte_payloads (t : list event) : list (list Z) :=
  omap (fun e => match e with SpiWritebyte l => Some l | _ => None end) t.




End EPD_V4.

(** The size of a frame buffer: [ceil(width/8) * height] bytes. *)
Definition framebuffer_size (width height : Z) : Z := ((width + 7) / 8) * height.

(** ** display/button_input.py

    Times are in milliseconds.  The handler methods run on two threads
    (the edge callbacks of the GPIO library and the monitoring thread);
    each of them is one atomic step here, and what the clock and the pin
    show during a step is an argument of the step. *)
Module ButtonInput.

Inductive event :=
| CallShortPress            (* self.on_short_press() *)
| CallLongPress             (* self.on_long_press() *)
| LogErrorShortPress        (* "Error in short press callback" *)
| LogErrorLongPress         (* "Error in long press callback" *)
| Sleep (ms : Z).

Record state := mkState {
  long_press_threshold : Z;
  press_start_time : option Z;
  long_press_triggered : bool;
  running : bool;
  on_short_press : option callback;
  on_long_press : option callback;
  trace : list event
}.

Definition set_press_start_time (t : option Z) (s : state) : state :=
  mkState (long_press_threshold s) t (long_press_triggered s) (running s)
          (on_short_press s) (on_long_press s) (trace s).
Definition set_long_press_triggered (b : bool) (s : state) : state :=
  mkState (long_press_threshold s) (press_start_time s) b (running s)
          (on_short_press s) (on_long_press s) (trace s).
Definition emit (e : event) (s : state) : state :=
  mkState (long_press_threshold s) (press_start_time s)
          (long_press_triggered s) (running s)
          (on_short_press s) (on_long_press s) (trace s ++ [e]).

(** [ButtonInputHandler(long_press_threshold=...)], callbacks assigned and
    [start()] called or not. *)
Definition init_state (threshold : Z) (started : bool)
    (short long : option callback) : state :=
  mkState threshold None false started short long [].

Abbreviation M := (M state).

(** Calling a user callback: the call is recorded, then it returns or
    raises. *)
Definition call (e : event) (cb : callback) : M unit :=
  modify (emit e) ;;;
  match cb with
  | Returns => ret tt
  | Raises x => raise x
  end.

Definition _on_button_pressed (now : Z) : M unit :=
  modify (set_press_start_time (Some now)) ;;;
  modify (set_long_press_triggered false).

Definition _on_button_released (now : Z) : M unit :=
  s <- get ;;
  match press_start_time s with
  | None => ret tt
  | Some start =>
      let duration := now - start in
      modify (set_press_start_time None) ;;;
      s <- get ;;
      if long_press_triggered s then ret tt
      else if duration <? long_press_threshold s then
        match on_short_press s with
        | Some cb =>
            try_except (call CallShortPress cb)
                       (fun _ => modify (emit LogErrorShortPress))
        | None => ret tt
        end
      else ret tt
  end.

(** The body of the [while self.running] loop, without the sleep. *)
Definition monitor_body (now : Z) (is_pressed : bool) : M unit :=
  s <- get ;;
  match press_start_time s with
  | Some start =>
      if negb (long_press_triggered s) then
        let duration := now - start in
        if (duration >=? long_press_threshold s) && is_pressed then
          modify (set_long_press_triggered true) ;;;
          match on_long_press s with
          | Some cb =>
              try_except (call CallLongPress cb)
                         (fun _ => modify (emit LogErrorLongPress))
          | None => ret tt
          end
        else ret tt
      else ret tt
  | None => ret tt
  end.

(** One turn of the loop: the test of [self.running], the body and the
    sleep.  The answer tells whether the loop goes on. *)
Definition monitor_pass (now : Z) (is_pressed : bool) : M bool :=
  s <- get ;;
  if running s then
    monitor_body now is_pressed ;;;
    modify (emit (Sleep 100)) ;;;
    ret true
  else ret false.


(** What happens to a handler, in the order in which it happens. *)
Inductive action :=
| Press (now : Z)                      (* the press edge *)
| Release (now : Z)                    (* the release edge *)
| Poll (now : Z) (is_pressed : bool).  (* a turn of the monitoring loop *)

Definition step (a : action) : M unit :=
  match a with
  | Press now => _on_button_pressed now
  | Release now => _on_button_released now
  | Poll now is_pressed => monitor_pass now is_pressed ;;; ret tt
  end.

Definition run (l : list action) : M unit := for_each l step.

(** One press-release cycle: the press at [t0], turns of the monitoring
    loop while the button is down, the release at [t1], and turns of the
    loop after it. *)
Definition cycle (t0 : Z) (polls : list (Z * bool)) (t1 : Z)
    (later : list (Z * bool)) : list action :=
  Press t0 :: map (fun p => Poll (fst p) (snd p)) polls
  ++ Release t1 :: map (fun p => Poll (fst p) (snd p)) later.

Definition is_short (e : event) : bool :=
  match e with CallShortPress => true | _ => false end.
Definition is_long (e : event) : bool :=
  match e with CallLongPress => true | _ => false end.

(** How often each callback was invoked in a trace. *)
Definition shorts (t : list event) : nat := length (filter is_short t).
Definition longs (t : list event) : nat := length (filter is_long t).

(** A turn of the monitoring loop that finds the button held for at least
    the threshold. *)
Definition sees_long (threshold t0 : Z) (p : Z * bool) : bool :=
  (fst p - t0 >=? threshold) && snd p.

(** The attributes that neither the edges nor the loop assign. *)
Definition config (s : state) :=
  (long_press_threshold s, running s, on_short_press s, on_long_press s).

(** [if self.on_..._press:] lets a call through when a callback is set. *)
Definition calls (cb : option callback) : nat :=
  match cb with Some _ => 1%nat | None => 0%nat end.

(** A callback that returns, or raises an exception that
    [except Exception] catches. *)
Definition tame (cb : option callback) : bool :=
  match cb with
  | Some (Raises e) => is_Exception e
  | _ => true
  end.

(** The press edges of a run, and the press that is under way and has
    fired nothing yet. *)
Definition is_press (a : action) : bool :=
  match a with Press _ => true | _ => false end.
Definition presses (l : list action) : nat := length (filter is_press l).
Definition pending (s : state) : nat :=
  match press_start_time s with
  | Some _ => if long_press_triggered s then 0%nat else 1%nat
  | None => 0%nat
  end.

(** [get_press_duration] at time [now]. *)
Definition get_press_duration (now : Z) (s : state) : Z :=
  match press_start_time s with
  | None => 0
  | Some start => now - start
  end.



End ButtonInput.

(** ** display/touch_handler.py *)
Module TouchHandler.

Inductive event :=
| CallOnError               (* a user supplied on_error(e) *)
| LogError                  (* _default_error_handler *)
| Sleep (ms : Z).

(** [self.on_error = on_error or self._default_error_handler] *)
Inductive error_handler :=
| Default
| User (cb : callback).

(** What [self.gt.digital_read(self.gt.INT)] does in one turn. *)
Inductive reading :=
| Level (v : Z)
| Fails (e : exn).

Record state := mkState {
  _running : bool;
  _flag : Z;                (* self._flag[0] *)
  interval : Z;             (* milliseconds *)
  on_error : error_handler;
  Touch : Z;                (* self.gt_dev.Touch *)
  trace : list event
}.

Definition set_Touch (v : Z) (s : state) : state :=
  mkState (_running s) (_flag s) (interval s) (on_error s) v (trace s).
Definition emit (e : event) (s : state) : state :=
  mkState (_running s) (_flag s) (interval s) (on_error s) (Touch s)
          (trace s ++ [e]).

(** The handler after [__init__] and [start()]. *)
Definition started (h : option callback) : state :=
  mkState true 1 10 (match h with Some cb => User cb | None => Default end) 0 [].

Abbreviation M := (M state).

Definition handle_error (e : exn) : M unit :=
  s <- get ;;
  match on_error s with
  | Default => modify (emit LogError)
  | User cb =>
      modify (emit CallOnError) ;;;
      match cb with
      | Returns => ret tt
      | Raises x => raise x
      end
  end.

Definition irq_body (r : reading) : M unit :=
  try_except
    (match r with
     | Level v => if v =? 0 then modify (set_Touch 1) else modify (set_Touch 0)
     | Fails e => raise e
     end)
    handle_error.

(** [_irq_loop], observed for as many turns as there are readings; the
    answer is the number of turns that ran. *)
Fixpoint _irq_loop (readings : list reading) : M nat :=
  match readings with
  | [] => ret O
  | r :: rest =>
      s <- get ;;
      if (_flag s =? 1) && _running s then
        irq_body r ;;;
        modify (emit (Sleep (interval s))) ;;;
        n <- _irq_loop rest ;; ret (Datatypes.S n)
      else ret O
  end.


(** A reading that answers, or fails with an exception that
    [except Exception] catches. *)
Definition catchable (r : reading) : bool :=
  match r with Level _ => true | Fails e => is_Exception e end.


(** The touch flag after the readings: what the last reading that
    answered says (the line is active low), or the flag from before. *)
Fixpoint seen (readings : list reading) (before : Z) : Z :=
  match readings with
  | [] => before
  | Level v :: rest => seen rest (if v =? 0 then 1 else 0)
  | Fails _ :: rest => seen rest before
  end.

(** [is_touched] *)
Definition is_touched (s : state) : bool := Touch s =? 1.

(** [stop()], as far as the loop can see it. *)
Definition stop (s : state) : state :=
  if negb (_running s) then s
  else mkState false 0 (interval s) (on_error s) (Touch s) (trace s).

(** The exception that the error handler raises, if it raises one. *)
Definition handler_raises (h : error_handler) : option exn :=
  match h with
  | User (Raises x) => Some x
  | _ => None
  end.

Definition is_sleep (e : event) : bool :=
  match e with Sleep _ => true | _ => false end.

End TouchHandler.

(** ** display/input_handler.py and the factory of display/button_input.py

    The configuration is a Python value read with [dict.get]; the handler
    classes are known to the factory by their constructors only, so a
    handler is the constructor call that builds it. *)
Module InputHandler.

Inductive value :=
| VNone
| VBool (b : bool)
| VInt (n : Z)
| VFloat (thousandths : Z)
| VStr (s : string)
| VDict (d : dict)
with dict :=
| DNil
| DCons (key : string) (v : value) (rest : dict).

(** Python truth value. *)
Definition truthy (v : value) : bool :=
  match v with
  | VNone => false
  | VBool b => b
  | VInt n => negb (n =? 0)
  | VFloat q => negb (q =? 0)
  | VStr s => negb (String.eqb s "")
  | VDict DNil => false
  | VDict (DCons _ _ _) => true
  end.

Fixpoint lookup_key (key : string) (d : dict) : option value :=
  match d with
  | DNil => None
  | DCons k v rest => if String.eqb k key then Some v else lookup_key key rest
  end.

(** [v.get(key, default)]: [None] stands for the AttributeError raised
    when [v] is not a dict. *)
Definition get (v : value) (key : string) (default : value) : option value :=
  match v with
  | VDict d => Some (from_option id default (lookup_key key d))
  | _ => None
  end.

Inductive handler :=
| TouchInputHandler (gt_old_given : bool) (config : value)
| ButtonInputHandler (gpio_pin long_press_threshold bounce_time pull_up : value).

(** [ButtonInputHandler(gpio_pin=...)] with the defaults of [__init__]
    for the rest. *)
Definition ButtonInputHandler_on (gpio_pin : value) : handler :=
  ButtonInputHandler gpio_pin (VFloat 2000) (VFloat 100) (VBool true).

(** [gpio_pin or 3] *)
Definition pin_or_3 (gpio_pin : option Z) : Z :=
  match gpio_pin with
  | None => 3
  | Some n => if n =? 0 then 3 else n
  end.

(** [create_input_handler]; [gt] and [gt_dev] tell whether the objects
    were given, [None] is the AttributeError of a [get] on something that
    is not a dict. *)
Definition create_input_handler (config : value) (gt gt_dev gt_old : bool)
    (gpio_pin : option Z) : option handler :=
  if gt && gt_dev then Some (TouchInputHandler gt_old config)
  else
    let fallback :=
      match gpio_pin with
      | Some n => Some (ButtonInputHandler_on (VInt n))
      | None => Some (ButtonInputHandler_on (VInt 3))
      end in
    if truthy config then
      hardware_config ← get config "hardware" (VDict DNil);
      touch_config ← get hardware_config "touch" (VDict DNil);
      _ ← get touch_config "enabled" (VBool false);
      button_config ← get hardware_config "button" (VDict DNil);
      enabled ← get button_config "enabled" (VBool true);
      if truthy enabled then
        pin ← get button_config "gpio_pin" (VInt (pin_or_3 gpio_pin));
        threshold ← get button_config "long_press_threshold" (VFloat 2000);
        bounce ← get button_config "bounce_time" (VFloat 100);
        pull_up ← get button_config "pull_up" (VBool true);
        Some (ButtonInputHandler pin threshold bounce pull_up)
      else fallback
    else fallback.

(** [detect_input_mode] *)
Definition detect_input_mode (config : value) : option string :=
  if truthy config then
    hardware_config ← get config "hardware" (VDict DNil);
    touch_config ← get hardware_config "touch" (VDict DNil);
    touch_enabled ← get touch_config "enabled" (VBool false);
    if truthy touch_enabled then Some "touch"
    else
      button_config ← get hardware_config "button" (VDict DNil);
      enabled ← get button_config "enabled" (VBool true);
      if truthy enabled then Some "button" else Some "button"
  else Some "button".


Definition is_touch (o : option handler) : bool :=
  match o with
  | Some (TouchInputHandler _ _) => true
  | _ => false
  end.

End InputHandler.

(** * Properties *)

(** ** Coordinate remapping *)






(** ** The fallback buffer of the V4 adapter *)



(** C10: on a panel of 122 x 250, an image whose size is neither
    (122, 250) nor (250, 122) makes [getbuffer] return, without any call
    into the image library, a list of 15 * 250 = 3750 zero bytes, which
    is not the frame buffer size ceil(122/8) * 250 = 4000. *)
Theorem C10_getbuffer_fallback_is_3750_zero_bytes
    {Image : Type} (size : Image -> Z * Z) (convert_1 rotate_90_expand : Image -> Image)
    (tobytes_raw : Image -> list Z) (s : EPD_V4.state) (image : Image) :
  EPD_V4.width s = 122 -> EPD_V4.height s = 250 ->
  size image <> (122, 250) -> size image <> (250, 122) ->
  let buf := EPD_V4.getbuffer size convert_1 rotate_90_expand tobytes_raw s image in
  buf = replicate 3750 0x00 /\
  length buf = 3750%nat /\
  Z.of_nat (length buf) = int_truediv 122 8 * 250 /\
  framebuffer_size (EPD_V4.width s) (EPD_V4.height s) = 4000 /\
  Z.of_nat (length buf) <> framebuffer_size (EPD_V4.width s) (EPD_V4.height s).
Proof.
  intros Hw Hh H1 H2 buf.
  assert (Hbuf : buf = replicate 3750 0x00).
  { subst buf. unfold EPD_V4.getbuffer. rewrite Hw, Hh.
    destruct (size image) as [iw ih].
    destruct ((iw =? 122) && (ih =? 250)) eqn:E1.
    { apply andb_true_iff in E1 as [Ea Eb].
      apply Z.eqb_eq in Ea, Eb. subst. contradiction. }
    destruct ((iw =? 250) && (ih =? 122)) eqn:E2.
    { apply andb_true_iff in E2 as [Ea Eb].
      apply Z.eqb_eq in Ea, Eb. subst. contradiction. }
    reflexivity. }
  rewrite Hbuf, Hw, Hh, length_replicate.
  repeat split; try reflexivity. discriminate.
Qed.

Lemma C10_getbuffer_fallback_witness :
  let s := EPD_V4.init_state 17 25 24 8 (fun _ => 0) in
  let buf := EPD_V4.getbuffer (fun i : Z * Z => i) (fun i => i) (fun i => i)
                              (fun _ => [0xFF]) s (100, 100) in
  buf = replicate 3750 0x00 /\
  length buf = 3750%nat /\
  Z.of_nat (length buf) = int_truediv 122 8 * 250 /\
  framebuffer_size (EPD_V4.width s) (EPD_V4.height s) = 4000 /\
  Z.of_nat (length buf) <> framebuffer_size (EPD_V4.width s) (EPD_V4.height s).
Proof.
  intros s.
  apply (C10_getbuffer_fallback_is_3750_zero_bytes
           (fun i : Z * Z => i) (fun i => i) (fun i => i) (fun _ => [0xFF])
           s (100, 100)); try reflexivity; discriminate.
Defined.

Lemma bind_ok {St A B} (m : M St A) (k : A -> M St B) (s s' : St) (a : A) :
  m s = (Ok a, s') -> bind m k s = k a s'.
Proof. intros H. unfold bind. rewrite H. reflexivity. Qed.


(** ** The touch driver *)

Section TouchDriver.
Import GT1151.


Lemma write_reg_hw (reg : Z) (data : list Z) (s : state) :
  exists b evs w, _write_reg reg data s = (Ok b, sent evs w s).
Proof.
  assert (Hid : s = sent [] (wire s) s).
  { unfold sent. rewrite app_nil_r. destruct s; reflexivity. }
  unfold _write_reg, bind, get.
  destruct (mock_mode s || negb (bus s)).
  { exists true, [], (wire s). unfold ret. congruence. }
  unfold try_except, bind, bus_call.
  destruct (wire s) as [|[d|] w] eqn:Hw; cbn.
  - eexists false, [_; _], []. unfold sent, log, modify, ret, set_wire, emit. cbn.
    rewrite ?Hw, <- ?app_assoc. reflexivity.
  - eexists true, [_], w. unfold sent, ret, set_wire, emit. cbn. reflexivity.
  - eexists false, [_; _], w. unfold sent, log, modify, ret, set_wire, emit. cbn.
    rewrite <- ?app_assoc. reflexivity.
Qed.





End TouchDriver.

(** ** What [read_touch] leaves alone *)

Section TouchFrame.
Import GT1151.

Lemma keeps_refl P s : safe P s -> keeps P s s.
Proof. intros H. repeat split; auto; apply H. Qed.

Lemma keeps_trans P s1 s2 s3 : keeps P s1 s2 -> keeps P s2 s3 -> keeps P s1 s3.
Proof.
  intros (Ho1 & Hh1 & _) (Ho2 & Hh2 & Hs). repeat split; try apply Hs.
  - congruence.
  - intros r Hr. rewrite Hh2, Hh1; auto.
Qed.

Lemma post_bind {A B} P (m : M A) (k : A -> M B) s :
  post P s (m s) ->
  (forall a s', keeps P s s' -> post P s' (k a s')) ->
  post P s (bind m k s).
Proof.
  intros [Hk Hb] Hcont. unfold bind. destruct (m s) as [[a|e|] s']; cbn in *.
  - destruct (Hcont a s' Hk) as [Hk' Hb']. split; [|exact Hb'].
    eapply keeps_trans; eauto.
  - split; auto.
  - contradiction.
Qed.

Lemma post_sent {A} P s evs w (a : A) : safe P s -> post P s (Ok a, sent evs w s).
Proof. intros H. split; [|exact I]. repeat split; auto; apply H. Qed.

Lemma post_store P s r i v : safe P s -> r ∉ P -> post P s (store r i v s).
Proof.
  intros Hs Hr. unfold store, bind, get.
  destruct (heap s !! r) as [l|] eqn:E; [|split; [apply keeps_refl; auto | reflexivity]].
  destruct (decide (i < length l)%nat); [|split; [apply keeps_refl; auto | reflexivity]].
  split; [|exact I]. destruct Hs as (HX & HY & Hdom). repeat split; cbn; auto.
  - intros p Hp. apply lookup_insert_ne. intros ->. contradiction.
  - rewrite dom_insert_L. set_solver.
Qed.

Lemma post_index P s l i : safe P s -> post P s (index l i s).
Proof.
  intros Hs. unfold index. destruct (l !! i); (split; [apply keeps_refl; auto | cbn; auto]).
Qed.

Lemma keeps_dev P s s' : keeps P s s' -> (X (gt_dev s') ∉ P) /\ (Y (gt_dev s') ∉ P).
Proof. intros (_ & _ & HX & HY & _). auto. Qed.

Lemma post_parse_point P data i s : safe P s -> post P s (parse_point data i s).
Proof.
  intros Hs. unfold parse_point.
  apply post_bind; [apply post_index; auto | intros b1 s1 H1].
  apply post_bind; [apply post_index; apply H1 | intros b2 s2 H2].
  apply post_bind; [apply post_index; apply H2 | intros b3 s3 H3].
  apply post_bind; [apply post_index; apply H3 | intros b4 s4 H4].
  unfold bind at 1, get at 1.
  apply post_bind; [apply post_store; [apply H4 | apply H4] | intros [] s5 H5].
  unfold bind, get. apply post_store; apply H5.
Qed.

Lemma post_for_each P (body : nat -> M unit) (l : list nat) :
  (forall i s, safe P s -> post P s (body i s)) ->
  forall s, safe P s -> post P s (for_each l body s).
Proof.
  intros Hbody. induction l as [|i l IH]; intros s Hs; cbn.
  - split; [apply keeps_refl; auto | exact I].
  - apply post_bind; [apply Hbody; auto | intros [] s' H'].
    apply IH. apply H'.
Qed.

Lemma read_reg_sent (reg len : Z) (s : state) :
  exists o evs w, _read_reg reg len s = (Ok o, sent evs w s).
Proof.
  assert (Hid : s = sent [] (wire s) s).
  { unfold sent. rewrite app_nil_r. destruct s; reflexivity. }
  unfold _read_reg, bind, get.
  destruct (mock_mode s || negb (bus s)).
  { eexists _, [], (wire s). unfold ret. rewrite <- Hid. reflexivity. }
  unfold try_except, bind, bus_call, sleep_ms, log, modify, ret, sent, set_wire, emit.
  destruct (wire s) as [|[d|] [|[d'|] w]] eqn:Hw; cbn; rewrite ?Hw; cbn;
    rewrite <- ?app_assoc; cbn; eexists _, _, _; reflexivity.
Qed.

Lemma post_read_reg P reg len s : safe P s -> post P s (_read_reg reg len s).
Proof.
  intros Hs. destruct (read_reg_sent reg len s) as (o & evs & w & ->).
  apply post_sent; auto.
Qed.

Lemma post_write_reg P reg data s : safe P s -> post P s (_write_reg reg data s).
Proof.
  intros Hs. destruct (write_reg_hw reg data s) as (o & evs & w & ->).
  apply post_sent; auto.
Qed.

Lemma post_set_dev_Touch P n s : safe P s -> post P s (set_dev_Touch n s).
Proof. intros Hs. split; [|exact I]. repeat split; cbn; apply Hs. Qed.

Lemma post_ret {A} P (a : A) s : safe P s -> post P s (ret a s).
Proof. intros Hs. split; [apply keeps_refl; auto | exact I]. Qed.

Lemma post_read_touch_body P s : safe P s -> post P s (read_touch_body s).
Proof.
  intros Hs. unfold read_touch_body.
  apply post_bind; [apply post_read_reg; auto | intros o s1 H1].
  destruct o as [[|b l]|]; try (apply post_ret; apply H1).
  destruct ((0 <? Z.land b 15) && (Z.land b 15 <=? 5)).
  - apply post_bind; [apply post_read_reg; apply H1 | intros o2 s2 H2].
    destruct (truthy o2).
    + apply post_bind; [apply post_set_dev_Touch; apply H2 | intros [] s3 H3].
      apply post_bind; [apply post_for_each; [intros; apply post_parse_point; auto | apply H3] | intros [] s4 H4].
      apply post_bind; [apply post_write_reg; apply H4 | intros ok s5 H5].
      apply post_ret; apply H5.
    + apply post_bind; [apply post_set_dev_Touch; apply H2 | intros [] s3 H3].
      apply post_ret; apply H3.
  - apply post_bind; [apply post_set_dev_Touch; apply H1 | intros [] s3 H3].
    apply post_ret; apply H3.
Qed.

Lemma post_alloc_X P l s :
  safe P s ->
  post P s ((xs <- alloc l ;; modify (fun s => set_gt_dev (with_X xs (gt_dev s)) s)) s).
Proof.
  intros (HX & HY & Hdom). unfold alloc, bind, get, modify, ret. cbn.
  pose proof (is_fresh (dom (heap s))) as Hf.
  split; [|exact I]. split; [reflexivity|]. split; [|split; [|split]]; cbn.
  - intros p Hp. apply lookup_insert_ne. intros E. rewrite <- E in Hp.
    set_solver.
  - set_solver.
  - set_solver.
  - rewrite dom_insert_L. set_solver.
Qed.

Lemma post_alloc_Y P l s :
  safe P s ->
  post P s ((ys <- alloc l ;; modify (fun s => set_gt_dev (with_Y ys (gt_dev s)) s)) s).
Proof.
  intros (HX & HY & Hdom). unfold alloc, bind, get, modify, ret. cbn.
  pose proof (is_fresh (dom (heap s))) as Hf.
  split; [|exact I]. split; [reflexivity|]. split; [|split; [|split]]; cbn.
  - intros p Hp. apply lookup_insert_ne. intros E. rewrite <- E in Hp.
    set_solver.
  - set_solver.
  - set_solver.
  - rewrite dom_insert_L. set_solver.
Qed.

(** [read_touch] always returns, and it leaves alone every list object
    other than the two coordinate lists of [gt_dev]. *)
Lemma read_touch_keeps P s :
  safe P s -> exists n s', read_touch s = (Ok n, s') /\ keeps P s s'.
Proof.
  intros Hs. unfold read_touch. unfold bind at 1, get at 1.
  destruct (mock_mode s).
  - assert (Hp : post P s
        ((set_dev_Touch 0 ;;;
          (xs <- alloc (py_repeat 0 5) ;;
           modify (fun s => set_gt_dev (with_X xs (gt_dev s)) s)) ;;;
          (ys <- alloc (py_repeat 0 5) ;;
           modify (fun s => set_gt_dev (with_Y ys (gt_dev s)) s)) ;;;
          ret 0) s)).
    { apply post_bind; [apply post_set_dev_Touch; auto | intros [] s1 H1].
      apply post_bind; [apply post_alloc_X; apply H1 | intros [] s2 H2].
      apply post_bind; [apply post_alloc_Y; apply H2 | intros [] s3 H3].
      apply post_ret; apply H3. }
    destruct Hp as [Hk _]. eexists _, _. split; [reflexivity | exact Hk].
  - pose proof (post_read_touch_body P s Hs) as [Hk Hb].
    unfold try_except. destruct (read_touch_body s) as [[n|e|] s1]; cbn in *.
    + eauto.
    + rewrite Hb. eexists _, _. split; [reflexivity|].
      eapply keeps_trans; [exact Hk|]. repeat split; cbn; apply Hk.
    + contradiction.
Qed.
End TouchFrame.

(** ** scan *)

Section TouchScan.
Import GT1151.

(** C7 (amended): when the lists of [gt_old] and [gt_dev] are distinct
    objects, as after construction, [scan] first copies the touch count and
    the first point [X[0]], [Y[0]] of the current frame into the previous
    frame, leaving the current frame as it is, and only then calls
    [read_touch]; after the call the previous frame still holds that count
    and first point, its other entries are the ones it had before, and its
    lists are still not shared with the current frame. *)
Theorem C7_scan_copies_count_and_first_point
    (s : state) (d x0 y0 : Z) (xs ys oxs oys : list Z) :
  heap s !! X (gt_dev s) = Some xs -> heap s !! Y (gt_dev s) = Some ys ->
  heap s !! X (gt_old s) = Some oxs -> heap s !! Y (gt_old s) = Some oys ->
  xs !! 0%nat = Some x0 -> ys !! 0%nat = Some y0 ->
  (0 < length oxs)%nat -> (0 < length oys)%nat ->
  X (gt_old s) <> Y (gt_old s) ->
  X (gt_old s) <> X (gt_dev s) -> X (gt_old s) <> Y (gt_dev s) ->
  Y (gt_old s) <> X (gt_dev s) -> Y (gt_old s) <> Y (gt_dev s) ->
  exists mid n s',
    scan d s = read_touch mid /\
    gt_dev mid = gt_dev s /\
    deref mid (X (gt_dev mid)) = xs /\ deref mid (Y (gt_dev mid)) = ys /\
    read_touch mid = (Ok n, s') /\
    Touch (gt_old s') = Touch (gt_dev s) /\
    deref s' (X (gt_old s')) = <[0%nat := x0]> oxs /\
    deref s' (Y (gt_old s')) = <[0%nat := y0]> oys /\
    X (gt_old s') <> X (gt_dev s') /\ X (gt_old s') <> Y (gt_dev s') /\
    Y (gt_old s') <> X (gt_dev s') /\ Y (gt_old s') <> Y (gt_dev s').
Proof.
  intros HX HY HOX HOY Hx0 Hy0 Hlx Hly Hoo Hxx Hxy Hyx Hyy.
  set (h1 := <[X (gt_old s) := <[0%nat := x0]> oxs]> (heap s)).
  set (h2 := <[Y (gt_old s) := <[0%nat := y0]> oys]> h1).
  set (mid := set_gt_old (with_Touch (Touch (gt_dev s)) (gt_old s))
                (set_heap h2 (set_scan_dir d s))).
  assert (Hscan : scan d s = read_touch mid).
  { unfold scan, bind, modify, get, load, store, index. cbn.
    rewrite HX. cbn. rewrite Hx0. cbn. rewrite HOX.
    destruct (decide (0 < length oxs)%nat) as [_|]; [|lia]. cbn. fold h1.
    assert (E1 : h1 !! Y (gt_dev s) = Some ys).
    { unfold h1. rewrite lookup_insert_ne by auto. exact HY. }
    assert (E2 : h1 !! Y (gt_old s) = Some oys).
    { unfold h1. rewrite lookup_insert_ne by auto. exact HOY. }
    rewrite E1. cbn. rewrite Hy0. cbn. rewrite E2.
    destruct (decide (0 < length oys)%nat) as [_|]; [|lia]. cbn. reflexivity. }
  assert (Hsafe : safe {[X (gt_old s); Y (gt_old s)]} mid).
  { repeat split; cbn.
    - set_solver.
    - set_solver.
    - unfold h2, h1. rewrite !dom_insert_L. set_solver. }
  destruct (read_touch_keeps _ mid Hsafe) as (n & s' & Hrun & Hold & Hheap & HsX & HsY & _).
  assert (HinX : X (gt_old s) ∈ ({[X (gt_old s); Y (gt_old s)]} : gset loc)) by set_solver.
  assert (HinY : Y (gt_old s) ∈ ({[X (gt_old s); Y (gt_old s)]} : gset loc)) by set_solver.
  assert (EX : heap s' !! X (gt_old s) = Some (<[0%nat := x0]> oxs)).
  { rewrite (Hheap _ HinX). cbn. unfold h2, h1.
    rewrite lookup_insert_ne by auto. apply lookup_insert_eq. }
  assert (EY : heap s' !! Y (gt_old s) = Some (<[0%nat := y0]> oys)).
  { rewrite (Hheap _ HinY). cbn. unfold h2. apply lookup_insert_eq. }
  assert (EdX : deref mid (X (gt_dev mid)) = xs).
  { unfold deref. cbn. unfold h2, h1.
    rewrite !lookup_insert_ne by auto. rewrite HX. reflexivity. }
  assert (EdY : deref mid (Y (gt_dev mid)) = ys).
  { unfold deref. cbn. unfold h2, h1.
    rewrite !lookup_insert_ne by auto. rewrite HY. reflexivity. }
  exists mid, n, s'. rewrite Hold. unfold deref. cbn [gt_old mid set_gt_old with_Touch X Y Touch].
  rewrite EX, EY.
  split; [exact Hscan|]. split; [reflexivity|].
  split; [exact EdX|]. split; [exact EdY|].
  split; [exact Hrun|]. split; [reflexivity|].
  split; [reflexivity|]. split; [reflexivity|].
  split; [intros E; apply HsX; rewrite <- E; exact HinX|].
  split; [intros E; apply HsY; rewrite <- E; exact HinX|].
  split; [intros E; apply HsX; rewrite <- E; exact HinY|].
  intros E; apply HsY; rewrite <- E; exact HinY.
Qed.

Lemma C7_scan_witness :
  let s := snd (read_touch (init_state false true two_fingers)) in
  exists mid n s',
    scan 0 s = read_touch mid /\
    gt_dev mid = gt_dev s /\
    deref mid (X (gt_dev mid)) = [125; 249; 0; 0; 0] /\
    deref mid (Y (gt_dev mid)) = [30; 5; 0; 0; 0] /\
    read_touch mid = (Ok n, s') /\
    Touch (gt_old s') = Touch (gt_dev s) /\
    deref s' (X (gt_old s')) = <[0%nat := 125]> [0; 0; 0; 0; 0] /\
    deref s' (Y (gt_old s')) = <[0%nat := 30]> [0; 0; 0; 0; 0] /\
    X (gt_old s') <> X (gt_dev s') /\ X (gt_old s') <> Y (gt_dev s') /\
    Y (gt_old s') <> X (gt_dev s') /\ Y (gt_old s') <> Y (gt_dev s').
Proof.
  intros s.
  apply (C7_scan_copies_count_and_first_point s 0 125 30
           [125; 249; 0; 0; 0] [30; 5; 0; 0; 0] [0; 0; 0; 0; 0] [0; 0; 0; 0; 0]);
    try (vm_compute; reflexivity); try (vm_compute; lia);
    vm_compute; discriminate.
Defined.

(** Against C7 as stated: after two fingers were read, [scan] leaves a
    previous frame that differs from the whole frame that was current
    before the call (the second point is not copied). *)
Lemma C7_previous_is_not_the_whole_frame :
  let s := snd (read_touch (init_state false true two_fingers)) in
  let s' := snd (scan 0 s) in
  frame s (gt_dev s) = (2, [125; 249; 0; 0; 0], [30; 5; 0; 0; 0], [0; 0; 0; 0; 0]) /\
  frame s' (gt_old s') = (2, [125; 0; 0; 0; 0], [30; 0; 0; 0; 0], [0; 0; 0; 0; 0]) /\
  frame s' (gt_old s') <> frame s (gt_dev s).
Proof.
  intros s s'. split; [vm_compute; reflexivity|].
  split; [vm_compute; reflexivity|].
  intros H. vm_compute in H. discriminate H.
Qed.

(** C9 at its failing input: two fingers are read, then the bus fails
    on the next point-info read; the second call returns 0 while the
    stored count [gt_dev.Touch] is still 2. *)
Theorem C9_failed_point_info_read_leaves_stale_count :
  let s0 := init_state false true (two_fingers ++ [I2cErr]) in
  let '(r1, s1) := read_touch s0 in
  let '(r2, s2) := read_touch s1 in
  r1 = Ok 2 /\ Touch (gt_dev s1) = 2 /\
  r2 = Ok 0 /\ Touch (gt_dev s2) = 2 /\
  trace s2 = trace s1 ++ [I2cWrite I2C_ADDR 0x81 [0x4E]; LogReadError POINT_INFO].
Proof. vm_compute. repeat split; reflexivity. Qed.
End TouchScan.

Section TouchWitness.
Import GT1151.

End TouchWitness.

(** ** The V3 display driver *)

Section DisplayV3.
Import EPD_V3.

Lemma advance_0 s : advance [] 0 0 s = s.
Proof.
  unfold advance. rewrite app_nil_r, Z.add_0_r, Nat.add_0_r. destruct s; reflexivity.
Qed.

Lemma advance_advance e1 m1 r1 e2 m2 r2 s :
  advance e2 m2 r2 (advance e1 m1 r1 s) = advance (e1 ++ e2) (m1 + m2) (r1 + r2) s.
Proof.
  unfold advance. cbn. rewrite app_assoc, Z.add_assoc, Nat.add_assoc. reflexivity.
Qed.

Lemma sleep_advance ms s : tick ms (emit (Sleep ms) s) = advance [Sleep ms] ms 0 s.
Proof. unfold advance, tick, emit. cbn. rewrite Nat.add_0_r. reflexivity. Qed.

Lemma busy_events_S k b :
  busy_events (Datatypes.S k) b = [GpioInput BUSY_PIN; Sleep 10] ++ busy_events k b.
Proof. reflexivity. Qed.

Lemma busy_loop_S (n : nat) (timeout : Z) (s : state) :
  mock_mode s = false ->
  busy_loop (Datatypes.S n) timeout s =
    if gpio_in s (gpio_reads s) =? 1 then
      if clock s + 10 >? timeout then
        (Ok true, advance [GpioInput BUSY_PIN; Sleep 10; LogWarningBusyTimeout] 10 1 s)
      else busy_loop n timeout (advance [GpioInput BUSY_PIN; Sleep 10] 10 1 s)
    else (Ok false, advance [GpioInput BUSY_PIN] 0 1 s).
Proof.
  intros Hm. cbn [busy_loop].
  unfold _digital_read, sleep, time. unfold bind, modify, get, ret. cbv beta iota.
  rewrite Hm. cbv beta iota.
  assert (E1 : forall e1 e2, tick 10 (emit e2 (count_read (emit e1 s)))
                              = advance [e1; e2] 10 1 s).
  { intros. unfold advance, emit, tick, count_read. cbn.
    rewrite <- app_assoc, Nat.add_1_r. reflexivity. }
  destruct (gpio_in s (gpio_reads s) =? 1).
  - cbv beta iota. rewrite E1. cbn [clock advance].
    destruct (clock s + 10 >? timeout).
    + unfold advance, emit. cbn. rewrite <- app_assoc. reflexivity.
    + reflexivity.
  - unfold advance, emit, count_read. cbn.
    rewrite Z.add_0_r, Nat.add_1_r. reflexivity.
Qed.

Lemma busy_loop_spec (fuel : nat) :
  forall (timeout : Z) (s : state),
    mock_mode s = false -> (1 <= fuel)%nat -> timeout < clock s + 10 * Z.of_nat fuel ->
    exists (k : nat) (gave_up : bool),
      busy_loop fuel timeout s =
        (Ok gave_up,
         advance (busy_events k gave_up) (10 * Z.of_nat k)
                 (k + if gave_up then 0 else 1) s) /\
      (k <= fuel)%nat /\
      (forall j, (j < k)%nat -> gpio_in s (gpio_reads s + j) = 1) /\
      (forall j, (1 <= j < k)%nat -> clock s + 10 * Z.of_nat j <= timeout) /\
      (if gave_up then (1 <= k)%nat /\ timeout < clock s + 10 * Z.of_nat k
       else gpio_in s (gpio_reads s + k) <> 1 /\
            (k = 0%nat \/ clock s + 10 * Z.of_nat k <= timeout)).
Proof.
  induction fuel as [|n IH]; intros timeout s Hm Hf Ht; [lia|].
  rewrite busy_loop_S by exact Hm.
  destruct (Z.eqb_spec (gpio_in s (gpio_reads s)) 1) as [Hb|Hb].
  - destruct (Z.gtb_spec (clock s + 10) timeout) as [Hgt|Hle].
    + exists 1%nat, true. split; [reflexivity|]. split; [lia|].
      split; [|split; [|split]].
      * intros j Hj. replace j with 0%nat by lia. rewrite Nat.add_0_r. exact Hb.
      * intros j Hj. lia.
      * lia.
      * lia.
    + set (s1 := advance [GpioInput BUSY_PIN; Sleep 10] 10 1 s).
      destruct (IH timeout s1) as (k & g & Hrun & Hk & Hbusy & Hearly & Hend).
      * exact Hm.
      * cbn in *. lia.
      * cbn. lia.
      * exists (Datatypes.S k), g. rewrite Hrun. unfold s1. rewrite advance_advance.
        split; [|split; [|split; [|split]]].
        -- rewrite busy_events_S. f_equal. f_equal; lia.
        -- lia.
        -- intros j Hj. destruct j as [|j]; [rewrite Nat.add_0_r; exact Hb|].
           specialize (Hbusy j ltac:(lia)). cbn in Hbusy.
           rewrite <- Hbusy. f_equal. lia.
        -- intros j Hj. destruct (decide (j = 1%nat)) as [->|Hj1]; [cbn; lia|].
           specialize (Hearly (j - 1)%nat ltac:(lia)). cbn in Hearly. lia.
        -- destruct g.
           ++ cbn in Hend. lia.
           ++ destruct Hend as [Hidle Hlate]. cbn in Hidle, Hlate. split.
              ** intros E. apply Hidle. rewrite <- E. f_equal. lia.
              ** right. lia.
  - exists 0%nat, false. split; [reflexivity|]. split; [lia|].
    split; [|split; [|split]].
    + intros j Hj. lia.
    + intros j Hj. lia.
    + rewrite Nat.add_0_r. exact Hb.
    + left. reflexivity.
Qed.

Lemma wait_until_idle_mock (fuel : nat) (s : state) :
  mock_mode s = true ->
  _wait_until_idle fuel s = (Ok PyNone, advance [Sleep 10] 10 0 s).
Proof.
  intros Hm. unfold _wait_until_idle, sleep. unfold bind, modify, get, ret.
  cbv beta iota. rewrite Hm. cbv beta iota.
  rewrite sleep_advance. reflexivity.
Qed.

Lemma wait_until_idle_hw (fuel : nat) (s : state) :
  mock_mode s = false -> (1001 <= fuel)%nat ->
  exists (k : nat) (gave_up : bool),
    _wait_until_idle fuel s =
      (Ok PyNone,
       advance (busy_events k gave_up ++ [Sleep 10]) (10 * Z.of_nat k + 10)
               (k + if gave_up then 0 else 1) s) /\
    (forall j, (j < k)%nat -> gpio_in s (gpio_reads s + j) = 1) /\
    (if gave_up then k = 1001%nat
     else (k <= 1000)%nat /\ gpio_in s (gpio_reads s + k) <> 1).
Proof.
  intros Hm Hf.
  destruct (busy_loop_spec fuel (clock s + 10000) s Hm ltac:(lia) ltac:(lia))
    as (k & g & Hrun & Hk & Hbusy & Hearly & Hend).
  exists k, g. split; [|split; [exact Hbusy|]].
  - unfold _wait_until_idle, time, sleep. unfold bind, modify, get, ret.
    cbv beta iota. rewrite Hm. cbv beta iota. rewrite Hrun.
    rewrite sleep_advance, advance_advance. rewrite Nat.add_0_r. reflexivity.
  - destruct g.
    + destruct Hend as [Hk1 Hlate].
      destruct (decide (k = 1001%nat)) as [|Hne]; [assumption|].
      destruct (decide (k < 1001)%nat); [lia|].
      specialize (Hearly 1001%nat ltac:(lia)). lia.
    + destruct Hend as [Hidle [->|Hin]]; split; auto; lia.
Qed.







End DisplayV3.

Section DisplayV3Claims.
Import EPD_V3.




End DisplayV3Claims.

(** ** The V4 display adapter *)

Section DisplayV4.
Import EPD_V4.

Lemma v4_advance_advance e1 r1 e2 r2 s :
  advance e2 r2 (advance e1 r1 s) = advance (e1 ++ e2) (r1 + r2) s.
Proof. unfold advance. cbn. rewrite app_assoc, Nat.add_assoc. reflexivity. Qed.

Lemma v4_send_command (c : Z) (s : state) :
  send_command c s = (Ok tt, advance (command_frame s c) 0 s).
Proof.
  unfold send_command, digital_write, spi_writebyte.
  unfold bind, modify, get, advance, command_frame, emit. cbn.
  rewrite <- !app_assoc, Nat.add_0_r. reflexivity.
Qed.

Lemma v4_send_data (d : Z) (s : state) :
  send_data d s = (Ok tt, advance (data_frame s d) 0 s).
Proof.
  unfold send_data, digital_write, spi_writebyte.
  unfold bind, modify, get, advance, data_frame, emit. cbn.
  rewrite <- !app_assoc, Nat.add_0_r. reflexivity.
Qed.

Lemma v4_send_data2 (l : list Z) (s : state) :
  send_data2 l s = (Ok tt, advance (bulk_frame s l) 0 s).
Proof.
  unfold send_data2, digital_write, spi_writebyte2.
  unfold bind, modify, get, advance, bulk_frame, emit. cbn.
  rewrite <- !app_assoc, Nat.add_0_r. reflexivity.
Qed.

Lemma ReadBusy_S (n : nat) (s : state) :
  ReadBusy (Datatypes.S n) s =
    if pin_in s (pin_reads s) =? 1
    then ReadBusy n (advance [DigitalRead (busy_pin s); DelayMs 10] 1 s)
    else (Ok PyNone, advance [DigitalRead (busy_pin s)] 1 s).
Proof.
  cbn [ReadBusy]. unfold digital_read, delay_ms. unfold bind, modify, get, ret.
  cbv beta iota. destruct (pin_in s (pin_reads s) =? 1).
  - f_equal. unfold advance, emit, count_read. cbn.
    rewrite <- app_assoc, Nat.add_1_r. reflexivity.
  - unfold advance, emit, count_read. cbn. rewrite Nat.add_1_r. reflexivity.
Qed.

Lemma ReadBusy_idle (k : nat) :
  forall (fuel : nat) (s : state),
    (k < fuel)%nat ->
    (forall j, (j < k)%nat -> pin_in s (pin_reads s + j) = 1) ->
    pin_in s (pin_reads s + k) <> 1 ->
    ReadBusy fuel s = (Ok PyNone, advance (busy_wait s k) (Datatypes.S k) s).
Proof.
  induction k as [|k IH]; intros fuel s Hf Hbusy Hidle;
    (destruct fuel as [|n]; [lia|]); rewrite ReadBusy_S.
  - rewrite Nat.add_0_r in Hidle.
    destruct (Z.eqb_spec (pin_in s (pin_reads s)) 1); [contradiction|]. reflexivity.
  - pose proof (Hbusy 0%nat ltac:(lia)) as H0. rewrite Nat.add_0_r in H0.
    rewrite H0. cbn [Z.eqb Pos.eqb].
    rewrite (IH n _ ltac:(lia)).
    + rewrite v4_advance_advance. unfold busy_wait. cbn [busy_pin advance].
      cbn [replicate concat]. rewrite <- !app_assoc. reflexivity.
    + intros j Hj. cbn. rewrite <- (Hbusy (Datatypes.S j) ltac:(lia)). f_equal. lia.
    + cbn. intros E. apply Hidle. rewrite <- E. f_equal. lia.
Qed.

Lemma ReadBusy_stuck (fuel : nat) :
  forall (s : state),
    (forall j, pin_in s (pin_reads s + j) = 1) ->
    fst (ReadBusy fuel s) = OutOfFuel.
Proof.
  induction fuel as [|n IH]; intros s Hbusy; [reflexivity|].
  rewrite ReadBusy_S.
  pose proof (Hbusy 0%nat) as H0. rewrite Nat.add_0_r in H0. rewrite H0.
  cbn [Z.eqb Pos.eqb]. apply IH.
  intros j. cbn. rewrite <- (Hbusy (Datatypes.S j)). f_equal. lia.
Qed.
End DisplayV4.

Section DisplayV4Claims.
Import EPD_V4.

Lemma v4_turn_on (fuel k : nat) (s : state) :
  (k < fuel)%nat ->
  (forall j, (j < k)%nat -> pin_in s (pin_reads s + j) = 1) ->
  pin_in s (pin_reads s + k) <> 1 ->
  TurnOnDisplay fuel s =
    (Ok PyNone,
     advance (command_frame s 0x22 ++ data_frame s 0xf7 ++ command_frame s 0x20
              ++ busy_wait s k) (Datatypes.S k) s).
Proof.
  intros Hf Hbusy Hidle. unfold TurnOnDisplay.
  rewrite (bind_ok _ _ _ _ _ (v4_send_command 0x22 s)). cbv beta.
  rewrite (bind_ok _ _ _ _ _ (v4_send_data 0xf7 _)). cbv beta.
  rewrite (bind_ok _ _ _ _ _ (v4_send_command 0x20 _)). cbv beta.
  rewrite (ReadBusy_idle k fuel _ Hf).
  - rewrite !v4_advance_advance. reflexivity.
  - intros j Hj. cbn. rewrite !Nat.add_0_r. apply Hbusy. exact Hj.
  - cbn. rewrite !Nat.add_0_r. exact Hidle.
Qed.


Lemma v4_clear (fuel k : nat) (color : Z) (s : state) :
  (k < fuel)%nat ->
  (forall j, (j < k)%nat -> pin_in s (pin_reads s + j) = 1) ->
  pin_in s (pin_reads s + k) <> 1 ->
  Clear fuel color s =
    (Ok PyNone,
     advance (command_frame s 0x24
              ++ bulk_frame s (py_repeat color (height s * linewidth (width s)))
              ++ command_frame s 0x22 ++ data_frame s 0xf7 ++ command_frame s 0x20
              ++ busy_wait s k) (Datatypes.S k) s).
Proof.
  intros Hf Hbusy Hidle. unfold Clear. unfold bind at 1, get at 1.
  rewrite (bind_ok _ _ _ _ _ (v4_send_command 0x24 s)). cbv beta.
  rewrite (bind_ok _ _ _ _ _ (v4_send_data2 _ _)). cbv beta.
  rewrite (v4_turn_on fuel k _ Hf).
  - rewrite !v4_advance_advance. reflexivity.
  - intros j Hj. cbn. rewrite !Nat.add_0_r. apply Hbusy. exact Hj.
  - cbn. rewrite !Nat.add_0_r. exact Hidle.
Qed.
End DisplayV4Claims.


(** ** The display claims *)

Lemma v3_payloads_app (a b : list EPD_V3.event) :
  EPD_V3.spi_payloads (a ++ b) = EPD_V3.spi_payloads a ++ EPD_V3.spi_payloads b.
Proof. apply omap_app. Qed.


Lemma v4_payloads_app (a b : list EPD_V4.event) :
  EPD_V4.bulk_payloads (a ++ b) = EPD_V4.bulk_payloads a ++ EPD_V4.bulk_payloads b.
Proof. apply omap_app. Qed.

Lemma v4_busy_wait_no_bulk (s : EPD_V4.state) (k : nat) :
  EPD_V4.bulk_payloads (EPD_V4.busy_wait s k) = [].
Proof.
  unfold EPD_V4.busy_wait. rewrite v4_payloads_app.
  induction k as [|k IH].
  - reflexivity.
  - cbn [replicate concat]. rewrite v4_payloads_app. exact IH.
Qed.






(** C6 (amended): [_wait_until_idle()] takes no timeout argument.  When
    the V3 driver drives the hardware it samples the busy line, sleeping
    10 ms after each busy sample, until a sample is not busy or the clock
    has passed the deadline fixed at 10 s after the call; passing the
    deadline logs a warning; either way it sleeps 10 ms more and returns
    None.  In mock mode it sleeps 10 ms, reads nothing and returns None.
    [ReadBusy] of the V4 adapter samples the line every 10 ms with no
    deadline: it returns None at the first sample that is not busy and
    does not return while the line stays busy. *)
Theorem C6_wait_until_idle_polls_until_idle_or_deadline (fuel : nat) :
  (forall s : EPD_V3.state,
     EPD_V3.mock_mode s = false -> (1001 <= fuel)%nat ->
     exists (k : nat) (gave_up : bool),
       EPD_V3._wait_until_idle fuel s =
         (Ok PyNone,
          EPD_V3.advance (EPD_V3.busy_events k gave_up ++ [EPD_V3.Sleep 10])
                         (10 * Z.of_nat k + 10)
                         (k + if gave_up then 0 else 1) s) /\
       (forall j, (j < k)%nat ->
          EPD_V3.gpio_in s (EPD_V3.gpio_reads s + j) = 1) /\
       (if gave_up then k = 1001%nat
        else (k <= 1000)%nat /\
             EPD_V3.gpio_in s (EPD_V3.gpio_reads s + k) <> 1) /\
       EPD_V3.warned (EPD_V3.busy_events k gave_up) = gave_up) /\
  (forall s : EPD_V3.state,
     EPD_V3.mock_mode s = true ->
     EPD_V3._wait_until_idle fuel s =
       (Ok PyNone, EPD_V3.advance [EPD_V3.Sleep 10] 10 0 s)) /\
  (forall (v : EPD_V4.state) (k : nat),
     (k < fuel)%nat ->
     (forall j, (j < k)%nat -> EPD_V4.pin_in v (EPD_V4.pin_reads v + j) = 1) ->
     EPD_V4.pin_in v (EPD_V4.pin_reads v + k) <> 1 ->
     EPD_V4.ReadBusy fuel v =
       (Ok PyNone, EPD_V4.advance (EPD_V4.busy_wait v k) (Datatypes.S k) v)) /\
  (forall v : EPD_V4.state,
     (forall j, EPD_V4.pin_in v (EPD_V4.pin_reads v + j) = 1) ->
     fst (EPD_V4.ReadBusy fuel v) = OutOfFuel).
Proof.
  split; [|split; [|split]].
  - intros s Hm Hf.
    destruct (wait_until_idle_hw fuel s Hm Hf) as (k & g & Hrun & Hbusy & Hend).
    exists k, g. split; [exact Hrun|]. split; [exact Hbusy|]. split; [exact Hend|].
    unfold EPD_V3.warned, EPD_V3.busy_events. rewrite existsb_app.
    assert (H0 : existsb
              (fun e => match e with EPD_V3.LogWarningBusyTimeout => true | _ => false end)
              (concat (replicate k [EPD_V3.GpioInput EPD_V3.BUSY_PIN; EPD_V3.Sleep 10]))
            = false).
    { clear. induction k as [|k IH]; [reflexivity|]. cbn. exact IH. }
    rewrite H0. destruct g; reflexivity.
  - intros s Hm. apply wait_until_idle_mock. exact Hm.
  - intros v k Hf Hbusy Hidle. apply ReadBusy_idle; assumption.
  - intros v Hbusy. apply ReadBusy_stuck. exact Hbusy.
Qed.

Lemma C6_wait_until_idle_witness :
  (exists (k : nat) (gave_up : bool),
     let s := EPD_V3.init_state false (fun _ => 1) 0 in
     EPD_V3._wait_until_idle 1001 s =
       (Ok PyNone,
        EPD_V3.advance (EPD_V3.busy_events k gave_up ++ [EPD_V3.Sleep 10])
                       (10 * Z.of_nat k + 10)
                       (k + if gave_up then 0 else 1) s) /\
     (forall j, (j < k)%nat ->
        EPD_V3.gpio_in s (EPD_V3.gpio_reads s + j) = 1) /\
     (if gave_up then k = 1001%nat
      else (k <= 1000)%nat /\
           EPD_V3.gpio_in s (EPD_V3.gpio_reads s + k) <> 1) /\
     EPD_V3.warned (EPD_V3.busy_events k gave_up) = gave_up) /\
  EPD_V3._wait_until_idle 1001 (EPD_V3.init_state true (fun _ => 1) 0) =
    (Ok PyNone,
     EPD_V3.advance [EPD_V3.Sleep 10] 10 0 (EPD_V3.init_state true (fun _ => 1) 0)) /\
  (let v := EPD_V4.init_state 17 25 24 8 (fun n => if (n <? 2)%nat then 1 else 0) in
   EPD_V4.ReadBusy 1001 v = (Ok PyNone, EPD_V4.advance (EPD_V4.busy_wait v 2) 3 v)) /\
  fst (EPD_V4.ReadBusy 1001 (EPD_V4.init_state 17 25 24 8 (fun _ => 1))) = OutOfFuel.
Proof.
  destruct (C6_wait_until_idle_polls_until_idle_or_deadline 1001)
    as (Hhw & Hmock & Hidle & Hstuck).
  split; [|split; [|split]].
  - apply (Hhw (EPD_V3.init_state false (fun _ => 1) 0)); [reflexivity | lia].
  - apply Hmock. reflexivity.
  - apply (Hidle (EPD_V4.init_state 17 25 24 8 (fun n => if (n <? 2)%nat then 1 else 0)) 2%nat).
    + lia.
    + intros j Hj. cbn. destruct j as [|[|j]]; [reflexivity | reflexivity | lia].
    + cbn. discriminate.
  - apply Hstuck. intros j. reflexivity.
Defined.

(** Against C6 as stated: the value returned is None, which is no
    boolean, both when the line is idle at once and when the line stays
    busy until the deadline has passed and the warning is logged. *)
Lemma C6_wait_until_idle_returns_none_either_way :
  let idle := EPD_V3._wait_until_idle 1001 (EPD_V3.init_state false (fun _ => 0) 0) in
  let stuck := EPD_V3._wait_until_idle 1001 (EPD_V3.init_state false (fun _ => 1) 0) in
  fst idle = Ok PyNone /\
  EPD_V3.warned (EPD_V3.trace (snd idle)) = false /\
  fst stuck = Ok PyNone /\
  EPD_V3.warned (EPD_V3.trace (snd stuck)) = true /\
  EPD_V3.clock (snd stuck) = 10020 /\
  fst idle = fst stuck /\
  is_pybool PyNone = false.
Proof. vm_compute. repeat split; reflexivity. Qed.


(** ** Button: one press-release cycle *)

Lemma for_each_app {St A} (l1 l2 : list A) (f : A -> M St unit) (s : St) :
  for_each (l1 ++ l2) f s =
  match for_each l1 f s with
  | (Ok _, s') => for_each l2 f s'
  | (Raise e, s') => (Raise e, s')
  | (OutOfFuel, s') => (OutOfFuel, s')
  end.
Proof.
  revert s. induction l1 as [|a l1 IH]; intros s; cbn.
  - reflexivity.
  - unfold bind. destruct (f a s) as [[[]|e|] s1]; auto.
Qed.

Section Button.
Import ButtonInput.

Lemma shorts_snoc t e :
  shorts (t ++ [e]) = (shorts t + if is_short e then 1 else 0)%nat.
Proof.
  unfold shorts. rewrite filter_app, length_app. cbn.
  destruct e; reflexivity.
Qed.

Lemma longs_snoc t e :
  longs (t ++ [e]) = (longs t + if is_long e then 1 else 0)%nat.
Proof.
  unfold longs. rewrite filter_app, length_app. cbn.
  destruct e; reflexivity.
Qed.

Ltac button_done :=
  eexists _, _; split; [reflexivity|];
  cbn -[shorts longs]; rewrite ?shorts_snoc, ?longs_snoc; cbn -[shorts longs];
  repeat split; try lia.

(** A turn of the loop while the button is down. *)
Lemma poll_step (t0 now : Z) (p : bool) (s : state) :
  press_start_time s = Some t0 ->
  exists res s',
    step (Poll now p) s = (res, s') /\
    config s' = config s /\ press_start_time s' = Some t0 /\
    shorts (trace s') = shorts (trace s) /\
    if running s && negb (long_press_triggered s)
       && sees_long (long_press_threshold s) t0 (now, p)
    then long_press_triggered s' = true /\
         longs (trace s') = (longs (trace s) + calls (on_long_press s))%nat /\
         (res = Ok tt \/ (tame (on_long_press s) = false /\ exists e, res = Raise e))
    else long_press_triggered s' = long_press_triggered s /\
         longs (trace s') = longs (trace s) /\ res = Ok tt.
Proof.
  destruct s as [thr ps latch run sh lo tr]. cbn [press_start_time]. intros ->.
  unfold sees_long, step, monitor_pass, monitor_body, call, try_except.
  unfold bind, modify, get, ret, raise.
  cbn -[shorts longs].
  destruct run; cbn -[shorts longs].
  2:{ button_done. }
  destruct latch; cbn -[shorts longs].
  { button_done. }
  destruct ((now - t0 >=? thr) && p); cbn -[shorts longs].
  2:{ button_done. }
  destruct lo as [[|e]|]; cbn -[shorts longs].
  - button_done. left; reflexivity.
  - destruct (is_Exception e) eqn:He; cbn -[shorts longs].
    + button_done. left; reflexivity.
    + button_done. right. split; [reflexivity | eexists; reflexivity].
  - button_done. left; reflexivity.
Qed.

(** The turns of the loop between the press and the release. *)
Lemma polls_run (t0 : Z) (polls : list (Z * bool)) :
  forall s : state,
  press_start_time s = Some t0 ->
  exists res s',
    for_each (map (fun p => Poll (fst p) (snd p)) polls) step s = (res, s') /\
    config s' = config s /\ press_start_time s' = Some t0 /\
    shorts (trace s') = shorts (trace s) /\
    if running s && negb (long_press_triggered s)
       && existsb (sees_long (long_press_threshold s) t0) polls
    then long_press_triggered s' = true /\
         longs (trace s') = (longs (trace s) + calls (on_long_press s))%nat /\
         (res = Ok tt \/ (tame (on_long_press s) = false /\ exists e, res = Raise e))
    else long_press_triggered s' = long_press_triggered s /\
         longs (trace s') = longs (trace s) /\ res = Ok tt.
Proof.
  induction polls as [|[now p] rest IH]; intros s Hp.
  - exists (Ok tt), s. cbn. rewrite !andb_false_r. repeat split. exact Hp.
  - destruct (poll_step t0 now p s Hp) as (res1 & s1 & E1 & Hc1 & Hp1 & Hs1 & H1).
    cbn [map for_each fst snd existsb]. unfold bind. rewrite E1.
    assert (Hc := Hc1). unfold config in Hc. injection Hc as Hthr Hrun Hsh Hlo.
    destruct (IH s1 Hp1) as (res2 & s2 & E2 & Hc2 & Hp2 & Hs2 & H2).
    rewrite Hthr, Hrun, Hlo in H2.
    destruct (running s && negb (long_press_triggered s)
              && sees_long (long_press_threshold s) t0 (now, p)) eqn:C1.
    + destruct H1 as (Hl1 & Hn1 & Hr1).
      apply andb_prop in C1 as [C1a C1b]. rewrite C1a, C1b. cbn [orb andb].
      destruct Hr1 as [-> | (Ht & e & ->)].
      * rewrite Hl1 in H2. cbn [negb] in H2. rewrite andb_false_r in H2.
        cbn [andb] in H2. destruct H2 as (Hl2 & Hn2 & ->).
        exists (Ok tt), s2. rewrite E2.
        split; [reflexivity|]. split; [congruence|]. split; [exact Hp2|].
        split; [congruence|]. split; [congruence|]. split; [congruence|].
        left; reflexivity.
      * exists (Raise e), s1.
        split; [reflexivity|]. split; [exact Hc1|]. split; [exact Hp1|].
        split; [exact Hs1|]. split; [exact Hl1|]. split; [exact Hn1|].
        right. split; [exact Ht | eexists; reflexivity].
    + destruct H1 as (Hl1 & Hn1 & ->).
      rewrite Hl1 in H2.
      assert (Eq : running s && negb (long_press_triggered s)
                   && (sees_long (long_press_threshold s) t0 (now, p)
                       || existsb (sees_long (long_press_threshold s) t0) rest)
                 = running s && negb (long_press_triggered s)
                   && existsb (sees_long (long_press_threshold s) t0) rest).
      { destruct (running s), (long_press_triggered s),
          (sees_long (long_press_threshold s) t0 (now, p)); cbn in *;
          congruence. }
      rewrite Eq. exists res2, s2. rewrite E2.
      split; [reflexivity|]. split; [congruence|]. split; [exact Hp2|].
      split; [congruence|].
      destruct (running s && negb (long_press_triggered s)
                && existsb (sees_long (long_press_threshold s) t0) rest).
      * destruct H2 as (Hl2 & Hn2 & Hr2).
        split; [exact Hl2|]. split; [congruence | exact Hr2].
      * destruct H2 as (Hl2 & Hn2 & Hr2).
        split; [congruence|]. split; [congruence | exact Hr2].
Qed.

(** The release edge of a press that started at [t0]. *)
Lemma release_step (t0 t1 : Z) (s : state) :
  press_start_time s = Some t0 ->
  exists res s',
    step (Release t1) s = (res, s') /\
    config s' = config s /\ press_start_time s' = None /\
    long_press_triggered s' = long_press_triggered s /\
    longs (trace s') = longs (trace s) /\
    if negb (long_press_triggered s) && (t1 - t0 <? long_press_threshold s)
    then shorts (trace s') = (shorts (trace s) + calls (on_short_press s))%nat /\
         (res = Ok tt \/ (tame (on_short_press s) = false /\ exists e, res = Raise e))
    else shorts (trace s') = shorts (trace s) /\ res = Ok tt.
Proof.
  destruct s as [thr ps latch run sh lo tr]. cbn [press_start_time]. intros ->.
  unfold step, _on_button_released, call, try_except.
  unfold bind, modify, get, ret, raise.
  cbn -[shorts longs].
  destruct latch; cbn -[shorts longs].
  { button_done. }
  destruct (t1 - t0 <? thr); cbn -[shorts longs].
  2:{ button_done. }
  destruct sh as [[|e]|]; cbn -[shorts longs].
  - button_done. left; reflexivity.
  - destruct (is_Exception e) eqn:He; cbn -[shorts longs].
    + button_done. left; reflexivity.
    + button_done. right. split; [reflexivity | eexists; reflexivity].
  - button_done. left; reflexivity.
Qed.

(** The turns of the loop while no press is under way. *)
Lemma idle_polls_run (polls : list (Z * bool)) :
  forall s : state,
  press_start_time s = None ->
  exists s',
    for_each (map (fun p => Poll (fst p) (snd p)) polls) step s = (Ok tt, s') /\
    config s' = config s /\ press_start_time s' = None /\
    long_press_triggered s' = long_press_triggered s /\
    shorts (trace s') = shorts (trace s) /\
    longs (trace s') = longs (trace s).
Proof.
  induction polls as [|[now p] rest IH]; intros s Hp.
  - exists s. cbn. repeat split. exact Hp.
  - cbn [map for_each fst snd]. unfold bind.
    assert (E1 : exists s1, step (Poll now p) s = (Ok tt, s1) /\
              config s1 = config s /\ press_start_time s1 = None /\
              long_press_triggered s1 = long_press_triggered s /\
              shorts (trace s1) = shorts (trace s) /\
              longs (trace s1) = longs (trace s)).
    { destruct s as [thr ps latch run sh lo tr]. cbn [press_start_time] in Hp.
      subst ps.
      unfold step, monitor_pass, monitor_body.
      unfold bind, modify, get, ret.
      cbn -[shorts longs]. destruct run; cbn -[shorts longs].
      - eexists. split; [reflexivity|]. cbn -[shorts longs].
        rewrite ?shorts_snoc, ?longs_snoc. cbn -[shorts longs].
        repeat split; lia.
      - eexists. split; [reflexivity|]. repeat split. }
    destruct E1 as (s1 & -> & Hc1 & Hp1 & Hl1 & Hs1 & Hn1).
    destruct (IH s1 Hp1) as (s2 & E2 & Hc2 & Hp2 & Hl2 & Hs2 & Hn2).
    exists s2. rewrite E2.
    split; [reflexivity|]. split; [congruence|]. split; [exact Hp2|].
    split; [congruence|]. split; congruence.
Qed.


(** The press edge. *)
Lemma press_step (t0 : Z) (s : state) :
  exists s',
    step (Press t0) s = (Ok tt, s') /\
    config s' = config s /\ press_start_time s' = Some t0 /\
    long_press_triggered s' = false /\ trace s' = trace s.
Proof.
  destruct s as [thr ps latch run sh lo tr].
  eexists. split; [reflexivity|]. repeat split.
Qed.

(** C1 (amended): in one press-release cycle of a handler whose callbacks
    raise nothing that [except Exception] lets through, the two callbacks
    are invoked at most once between them.  The long-press callback is
    invoked, exactly once and with no short press following at the
    release, when the handler is running and some turn of the monitoring
    loop finds the button down at least the threshold after the press;
    holding the button that long is not enough.  When no turn of the loop
    sees that, the release invokes the short-press callback exactly once
    if it comes before the threshold, and nothing at all otherwise.  A
    callback that is not set is not invoked. *)
Theorem C1_press_cycle_fires_at_most_one_callback
    (t0 t1 : Z) (polls later : list (Z * bool)) (s : state) :
  tame (on_short_press s) = true ->
  tame (on_long_press s) = true ->
  let seen :=
    running s && existsb (sees_long (long_press_threshold s) t0) polls in
  exists s',
    run (cycle t0 polls t1 later) s = (Ok tt, s') /\
    press_start_time s' = None /\
    long_press_triggered s' = seen /\
    (shorts (trace s') + longs (trace s')
       <= shorts (trace s) + longs (trace s) + 1)%nat /\
    (seen = true ->
       longs (trace s') = (longs (trace s) + calls (on_long_press s))%nat /\
       shorts (trace s') = shorts (trace s)) /\
    (seen = false -> t1 - t0 < long_press_threshold s ->
       shorts (trace s') = (shorts (trace s) + calls (on_short_press s))%nat /\
       longs (trace s') = longs (trace s)) /\
    (seen = false -> long_press_threshold s <= t1 - t0 ->
       shorts (trace s') = shorts (trace s) /\
       longs (trace s') = longs (trace s)).
Proof.
  intros Hts Htl seen.
  destruct (press_step t0 s) as (s0 & E0 & Hc0 & Hp0 & Hl0 & Ht0).
  assert (Hc := Hc0). unfold config in Hc. injection Hc as Hthr0 Hrun0 Hsh0 Hlo0.
  destruct (polls_run t0 polls s0 Hp0)
    as (res1 & s1 & E1 & Hc1 & Hp1 & Hs1 & H1).
  rewrite Hl0, Hthr0, Hrun0, Hlo0, Ht0 in H1. cbn [negb] in H1.
  rewrite andb_true_r in H1. fold seen in H1.
  rewrite Ht0 in Hs1.
  assert (Hc := Hc1). unfold config in Hc. injection Hc as Hthr1 Hrun1 Hsh1 Hlo1.
  destruct (release_step t0 t1 s1 Hp1)
    as (res2 & s2 & E2 & Hc2 & Hp2 & Hl2 & Hn2 & H2).
  rewrite Hthr1, Hthr0, Hsh1, Hsh0 in H2.
  destruct (idle_polls_run later s2 Hp2)
    as (s3 & E3 & Hc3 & Hp3 & Hl3 & Hs3 & Hn3).
  assert (Hcalls_l : (calls (on_long_press s) <= 1)%nat)
    by (destruct (on_long_press s); cbn; lia).
  assert (Hcalls_s : (calls (on_short_press s) <= 1)%nat)
    by (destruct (on_short_press s); cbn; lia).
  assert (R1 : res1 = Ok tt).
  { destruct seen.
    - destruct H1 as (_ & _ & [-> | (Hn & _)]); [reflexivity | congruence].
    - destruct H1 as (_ & _ & ->); reflexivity. }
  assert (R2 : res2 = Ok tt).
  { destruct (negb (long_press_triggered s1)
              && (t1 - t0 <? long_press_threshold s)).
    - destruct H2 as (_ & [-> | (Hn & _)]); [reflexivity | congruence].
    - destruct H2 as (_ & ->); reflexivity. }
  subst res1 res2.
  exists s3. split.
  { unfold run, cycle. cbn [for_each]. unfold bind at 1. rewrite E0.
    rewrite for_each_app, E1. cbn [for_each]. unfold bind at 1.
    rewrite E2. exact E3. }
  split; [exact Hp3|].
  destruct seen eqn:Hseen.
  - destruct H1 as (Hl1 & Hn1 & _).
    rewrite Hl1 in H2. cbn [negb andb] in H2. destruct H2 as (Hs2 & _).
    split; [congruence|].
    split; [lia|].
    split; [intros _; split; lia|].
    split; intros; discriminate.
  - destruct H1 as (Hl1 & Hn1 & _).
    rewrite Hl1 in H2. cbn [negb andb] in H2.
    split; [congruence|].
    destruct (Z.ltb_spec (t1 - t0) (long_press_threshold s)) as [Hlt|Hge].
    + destruct H2 as (Hs2 & _).
      split; [lia|].
      split; [intros; discriminate|].
      split; [intros _ _; split; lia|].
      intros _ ?; lia.
    + destruct H2 as (Hs2 & _).
      split; [lia|].
      split; [intros; discriminate|].
      split; [intros _ ?; lia|].
      intros _ _; split; lia.
Qed.

(** A handler that was started, with both callbacks set, the button held
    for 2.5 s and the loop turning every 100 ms: one long press, no short
    press. *)
Lemma C1_press_cycle_witness :
  let s := init_state 2000 true (Some Returns) (Some (Raises UserExc)) in
  let polls := map (fun k => (50 + 100 * Z.of_nat k, true)) (seq 0 25) in
  exists s',
    run (cycle 0 polls 2500 [(2550, false)]) s = (Ok tt, s') /\
    longs (trace s') = 1%nat /\ shorts (trace s') = 0%nat.
Proof.
  intros s polls.
  destruct (C1_press_cycle_fires_at_most_one_callback
              0 2500 polls [(2550, false)] s eq_refl eq_refl)
    as (s' & E & _ & _ & _ & Hlong & _).
  exists s'. split; [exact E|]. exact (Hlong eq_refl).
Defined.

(** The button held for 2.04 s, which is more than the threshold of 2 s,
    and released between two turns of the loop (at 1.95 s the threshold
    is not reached, the next turn comes at 2.05 s): neither callback is
    invoked and the latch stays unset. *)
Lemma C1_long_hold_released_between_polls_fires_nothing :
  let s := init_state 2000 true (Some Returns) (Some Returns) in
  let polls := map (fun k => (50 + 100 * Z.of_nat k, true)) (seq 0 20) in
  exists s',
    run (cycle 0 polls 2040 [(2050, false); (2150, false)]) s = (Ok tt, s') /\
    long_press_threshold s <= 2040 - 0 /\
    long_press_triggered s' = false /\
    longs (trace s') = 0%nat /\ shorts (trace s') = 0%nat.
Proof.
  eexists. split; [vm_compute; reflexivity|]. vm_compute.
  split; [discriminate|]. repeat split.
Qed.

End Button.

(** ** Exceptions raised by callbacks *)

Section ButtonErrors.
Import ButtonInput.







End ButtonErrors.

Section TouchErrors.
Import TouchHandler.





End TouchErrors.




(** ** The touch driver on every input *)

Section TouchTotal.
Import GT1151.

(** A register read never raises, and it changes nothing but the bus. *)
Lemma read_reg_shape (reg len : Z) (s : state) :
  exists o evs w,
    _read_reg reg len s = (Ok o, sent evs w s) /\
    (mock_mode s || negb (bus s) = true ->
       o = Some (py_repeat 0 len) /\ evs = [] /\ w = wire s) /\
    (mock_mode s || negb (bus s) = false ->
       match wire s with
       | I2cOk _ :: I2cOk d :: w' =>
           o = Some d /\ evs = read_events s reg len /\ w = w'
       | I2cOk _ :: I2cErr :: w' =>
           o = None /\
           evs = read_events s reg len ++ [LogReadError reg] /\ w = w'
       | [I2cOk _] =>
           o = None /\
           evs = read_events s reg len ++ [LogReadError reg] /\ w = []
       | I2cErr :: w' =>
           o = None /\
           evs = [I2cWrite (i2c_addr s) (addr_high reg) [addr_low reg];
                  LogReadError reg] /\ w = w'
       | [] =>
           o = None /\
           evs = [I2cWrite (i2c_addr s) (addr_high reg) [addr_low reg];
                  LogReadError reg] /\ w = []
       end).
Proof.
  assert (Hid : s = sent [] (wire s) s).
  { unfold sent. rewrite app_nil_r. destruct s; reflexivity. }
  unfold _read_reg, bind, get.
  destruct (mock_mode s || negb (bus s)) eqn:Hm.
  { eexists _, [], (wire s). unfold ret. rewrite <- Hid.
    split; [reflexivity|]. split; [auto | discriminate]. }
  unfold try_except, bind, bus_call, sleep_ms, log, modify, ret, sent,
    set_wire, emit, read_events.
  destruct (wire s) as [|[d|] [|[d'|] w]] eqn:Hw; cbn; rewrite ?Hw; cbn;
    rewrite <- ?app_assoc; cbn; eexists _, _, _;
    (split; [reflexivity|]); (split; [discriminate|]); intros _;
    repeat split; reflexivity.
Qed.

Lemma sent_dev evs w s : gt_dev (sent evs w s) = gt_dev s.
Proof. reflexivity. Qed.

Lemma store_shape (r : loc) (i : nat) (v : Z) (s : state) :
  (exists l, heap s !! r = Some l /\ (i < length l)%nat /\
             store r i v s
             = (Ok tt, set_heap (<[r := <[i := v]> l]> (heap s)) s)) \/
  (exists e, is_Exception e = true /\ store r i v s = (Raise e, s)).
Proof.
  unfold store, bind, get, modify, raise.
  destruct (heap s !! r) as [l|]; [|right; exists TypeError; auto].
  destruct (decide (i < length l)%nat); [|right; exists IndexError; auto].
  left. exists l. auto.
Qed.

Lemma sized_store (r : loc) (i : nat) (v : Z) (l : list Z) (s : state) :
  heap s !! r = Some l ->
  sized (set_heap (<[r := <[i := v]> l]> (heap s)) s) r (length l) /\
  forall r' n, sized s r' n ->
    sized (set_heap (<[r := <[i := v]> l]> (heap s)) s) r' n.
Proof.
  intros Hl. split.
  - unfold sized. cbn. rewrite lookup_insert_eq. eexists.
    split; [reflexivity|]. apply length_insert.
  - intros r' n (l' & Hl' & Hn). unfold sized. cbn.
    destruct (decide (r' = r)) as [->|Hne].
    + rewrite lookup_insert_eq. eexists. split; [reflexivity|].
      rewrite length_insert. congruence.
    + rewrite lookup_insert_ne by auto. eauto.
Qed.

(** One turn of the parsing loop keeps the state object, raises nothing
    that [except Exception] lets through, and resizes no list. *)
Lemma parse_point_dev (data : list Z) (i : nat) (s : state) :
  gt_dev (snd (parse_point data i s)) = gt_dev s /\
  benign (fst (parse_point data i s)) /\
  (forall r n, sized s r n -> sized (snd (parse_point data i s)) r n) /\
  (fst (parse_point data i s) = Ok tt ->
     exists n m, sized (snd (parse_point data i s)) (X (gt_dev s)) n /\
                 sized (snd (parse_point data i s)) (Y (gt_dev s)) m /\
                 (i < n)%nat /\ (i < m)%nat).
Proof.
  unfold parse_point, bind, index, ret, raise.
  destruct (data !! (i * 8 + 1)%nat) as [b1|];
    [|cbn; repeat split; auto; discriminate].
  destruct (data !! (i * 8 + 2)%nat) as [b2|];
    [|cbn; repeat split; auto; discriminate].
  destruct (data !! (i * 8 + 3)%nat) as [b3|];
    [|cbn; repeat split; auto; discriminate].
  destruct (data !! (i * 8 + 4)%nat) as [b4|];
    [|cbn; repeat split; auto; discriminate].
  unfold get. cbv beta iota.
  destruct (store_shape (X (gt_dev s)) i (_map_x (Z.lor b1 (Z.shiftl b2 8))) s)
    as [(xs & HX & Hi & ->) | (e & He & ->)];
    [|cbn; repeat split; auto; discriminate].
  destruct (sized_store _ i (_map_x (Z.lor b1 (Z.shiftl b2 8))) _ _ HX)
    as [HX1 Hs1].
  set (s1 := set_heap _ s) in *.
  change (gt_dev s1) with (gt_dev s).
  destruct (store_shape (Y (gt_dev s)) i (_map_y (Z.lor b3 (Z.shiftl b4 8))) s1)
    as [(ys & HY & Hj & ->) | (e & He & ->)];
    [|cbn; repeat split; auto; discriminate].
  destruct (sized_store _ i (_map_y (Z.lor b3 (Z.shiftl b4 8))) _ _ HY)
    as [HY2 Hs2].
  set (s2 := set_heap _ s1) in *.
  cbn [fst snd].
  split; [reflexivity|]. split; [exact I|].
  split; [intros r n H; apply Hs2, Hs1, H|].
  intros _. exists (length xs), (length ys).
  split; [apply Hs2, HX1|]. split; [exact HY2|]. split; assumption.
Qed.

Lemma parse_loop_dev (data : list Z) (l : list nat) :
  forall s : state,
  gt_dev (snd (for_each l (parse_point data) s)) = gt_dev s /\
  benign (fst (for_each l (parse_point data) s)) /\
  (forall r n, sized s r n ->
     sized (snd (for_each l (parse_point data) s)) r n) /\
  (fst (for_each l (parse_point data) s) = Ok tt ->
     forall i, i ∈ l ->
     exists n m, sized (snd (for_each l (parse_point data) s)) (X (gt_dev s)) n /\
                 sized (snd (for_each l (parse_point data) s)) (Y (gt_dev s)) m /\
                 (i < n)%nat /\ (i < m)%nat).
Proof.
  induction l as [|i l IH]; intros s.
  - cbn. repeat split; auto. intros _ i Hi. inversion Hi.
  - cbn [for_each]. unfold bind.
    destruct (parse_point_dev data i s) as (Hd & Hb & Hs & Hok).
    destruct (parse_point data i s) as [[[]|e|] s1]; cbn [fst snd] in *.
    + destruct (IH s1) as (Hd' & Hb' & Hs' & Hok').
      split; [congruence|]. split; [exact Hb'|].
      split; [intros r n H; apply Hs', Hs, H|].
      intros Hr j Hj. apply elem_of_cons in Hj as [->|Hj].
      * destruct (Hok eq_refl) as (n & m & HX & HY & Hn & Hm).
        exists n, m. split; [apply Hs', HX|].
        split; [apply Hs', HY|]. split; assumption.
      * rewrite <- Hd. apply Hok'; assumption.
    + repeat split; auto. discriminate.
    + contradiction.
Qed.

Lemma read_touch_shape (s : state) :
  exists n s',
    read_touch s = (Ok n, s') /\
    0 <= n <= 5 /\
    (0 < n -> Touch (gt_dev s') = n) /\
    (0 <= Touch (gt_dev s) <= 5 -> 0 <= Touch (gt_dev s') <= 5) /\
    (0 < n ->
       exists nx ny, sized s' (X (gt_dev s')) nx /\ sized s' (Y (gt_dev s')) ny /\
                     (0 < nx)%nat /\ (0 < ny)%nat).
Proof.
  unfold read_touch, bind at 1, get at 1. cbv beta iota.
  destruct (mock_mode s) eqn:Hm.
  { unfold set_dev_Touch, alloc, bind, modify, get, ret. cbn.
    eexists _, _. split; [reflexivity|]. cbn.
    split; [lia|]. split; [lia|]. split; [lia|]. lia. }
  unfold try_except, read_touch_body, bind at 1.
  destruct (read_reg_shape POINT_INFO 1 s) as (o & evs & w & -> & _).
  set (s1 := sent evs w s).
  destruct o as [[|b l]|].
  1,3: (unfold ret; eexists _, _; split; [reflexivity|]; cbn;
        split; [lia|]; split; [lia|]; split; [auto|]; lia).
  destruct ((0 <? Z.land b 15) && (Z.land b 15 <=? 5)) eqn:Hc.
  2:{ unfold set_dev_Touch, bind, modify, ret. cbn.
      eexists _, _. split; [reflexivity|]. cbn.
      split; [lia|]. split; [lia|]. split; [lia|]. lia. }
  apply andb_prop in Hc as [Hc1 Hc2].
  apply Z.ltb_lt in Hc1. apply Z.leb_le in Hc2.
  unfold bind at 1.
  destruct (read_reg_shape POINT1_REG (Z.land b 15 * 8) s1)
    as (o2 & evs2 & w2 & -> & _).
  set (s2 := sent evs2 w2 s1).
  destruct (truthy o2) eqn:Ht.
  2:{ unfold set_dev_Touch, bind, modify, ret. cbn.
      eexists _, _. split; [reflexivity|]. cbn.
      split; [lia|]. split; [lia|]. split; [lia|]. lia. }
  unfold set_dev_Touch at 1, bind at 1, modify at 1. cbv beta iota.
  set (s3 := set_gt_dev (with_Touch (Z.land b 15) (gt_dev s2)) s2).
  unfold for_range, bind at 1.
  destruct (parse_loop_dev (default [] o2) (seq 0 (Z.to_nat (Z.land b 15))) s3)
    as (Hd & Hb & _ & Hok).
  destruct (for_each (seq 0 (Z.to_nat (Z.land b 15)))
              (parse_point (default [] o2)) s3) as [[[]|e|] s4];
    cbn [fst snd] in *.
  - unfold bind at 1.
    destruct (write_reg_hw POINT_INFO [0x00] s4) as (ok & evs5 & w5 & ->).
    unfold ret. eexists _, _. split; [reflexivity|].
    cbn [gt_dev sent]. rewrite Hd. cbn.
    split; [lia|]. split; [auto|]. split; [lia|].
    intros _.
    destruct (Hok eq_refl 0%nat) as (n & m & HX & HY & Hn & Hm').
    { apply elem_of_seq. lia. }
    exists n, m. split; [exact HX|]. split; [exact HY|]. split; assumption.
  - rewrite Hb. unfold log, set_dev_Touch, bind, modify, ret. cbn.
    eexists _, _. split; [reflexivity|]. cbn.
    split; [lia|]. split; [lia|]. split; [lia|]. lia.
  - contradiction.
Qed.

(** X1: [read_touch] on every state of the driver and every behaviour
    of the device returns a count between 0 and 5 and raises nothing; a
    positive count is the count stored in [gt_dev.Touch]; a stored count
    that was between 0 and 5 still is. *)
Theorem read_touch_returns_count_in_range (s : state) :
  exists n s',
    read_touch s = (Ok n, s') /\
    0 <= n <= 5 /\
    (0 < n -> Touch (gt_dev s') = n) /\
    (0 <= Touch (gt_dev s) <= 5 -> 0 <= Touch (gt_dev s') <= 5).
Proof.
  destruct (read_touch_shape s) as (n & s' & E & Hn & HT & Hinv & _).
  exists n, s'. auto.
Qed.

(** X2: a register read never raises and touches neither the state
    objects nor the lists.  In mock mode or without a bus it yields
    [length] zeros and leaves the bus alone; otherwise it yields what the
    device answered when both bus transactions went through (the traffic
    is the address write, a sleep of 1 ms and the block read) and [None]
    when one of them failed, the last thing done being the error log. *)
Theorem read_reg_never_raises (reg len : Z) (s : state) :
  exists o s',
    _read_reg reg len s = (Ok o, s') /\
    heap s' = heap s /\ gt_dev s' = gt_dev s /\ gt_old s' = gt_old s /\
    if mock_mode s || negb (bus s)
    then o = Some (py_repeat 0 len) /\ trace s' = trace s /\ wire s' = wire s
    else o = answer (wire s) /\
         (o = None -> last (trace s') = Some (LogReadError reg)) /\
         (o <> None -> trace s' = trace s ++ read_events s reg len).
Proof.
  destruct (read_reg_shape reg len s) as (o & evs & w & E & Hmock & Hhw).
  exists o, (sent evs w s). split; [exact E|].
  split; [reflexivity|]. split; [reflexivity|]. split; [reflexivity|].
  destruct (mock_mode s || negb (bus s)).
  - destruct (Hmock eq_refl) as (-> & -> & ->). cbn.
    rewrite app_nil_r. auto.
  - specialize (Hhw eq_refl). unfold answer.
    destruct (wire s) as [|[a|] [|[d|] w']];
      destruct Hhw as (-> & -> & ->); cbn [trace sent];
      (split; [reflexivity|]);
      (split; [intros Ho; try discriminate Ho | intros Ho; congruence]);
      unfold read_events; cbn [app]; rewrite last_app; reflexivity.
Qed.

(** X3: [get_point] after a [read_touch] that reported a touch: the
    first point is there to be read, no [IndexError] is raised and the
    answer says touched. *)
Theorem get_point_after_touch (s s' : state) (n : Z) :
  read_touch s = (Ok n, s') -> 0 < n ->
  exists x y, get_point s' = (Ok (x, y, true), s').
Proof.
  intros Hr Hn.
  destruct (read_touch_shape s)
    as (n' & s'' & E & _ & HT & _ & Hsz).
  rewrite Hr in E. injection E as <- <-.
  destruct (Hsz Hn) as (nx & ny & (xs & HX & Hlx) & (ys & HY & Hly) & Hx & Hy).
  unfold get_point, load, index. unfold bind, get, ret. cbv beta iota.
  rewrite (HT Hn).
  destruct (Z.gtb_spec n 0) as [_|Hg]; [|lia].
  rewrite HX.
  destruct xs as [|x xs]; [cbn in Hlx; lia|]. cbn [lookup list_lookup].
  cbv beta iota. rewrite HY.
  destruct ys as [|y ys]; [cbn in Hly; lia|]. cbn [lookup list_lookup].
  exists x, y. reflexivity.
Qed.

Lemma get_point_after_touch_witness :
  let s := init_state false true two_fingers in
  exists x y,
    get_point (snd (read_touch s)) = (Ok (x, y, true), snd (read_touch s)).
Proof.
  intros s.
  apply (get_point_after_touch s (snd (read_touch s)) 2);
    [vm_compute; reflexivity | lia].
Defined.

(** X4: building the driver never fails: it ends in hardware mode exactly
    when the libraries are there, mock mode was not asked for, the bus
    opens, one of the two addresses answers and the GPIO set-up goes
    through; otherwise it ends in mock mode with no bus.  In hardware mode
    the address is the primary one if it answered and the alternative one
    otherwise.  A driver that ended in mock mode reports no touch and
    leaves the bus alone. *)
Theorem init_degrades_to_mock (m : option bool) (hw : bool) (p : probe)
    (w : list reply) :
  let s := __init__ m hw p w in
  bus s = negb (mock_mode s) /\
  (mock_mode s = false <->
     m <> Some true /\ hw = true /\ smbus_opens p = true /\
     primary_answers p || alt_answers p = true /\ gpio_setup_ok p = true) /\
  (mock_mode s = false ->
     i2c_addr s = if primary_answers p then I2C_ADDR else I2C_ADDR_ALT) /\
  (mock_mode s = true ->
     exists s', scan 0 s = (Ok 0, s') /\ trace s' = [] /\ wire s' = w /\
                get_point s' = (Ok (0, 0, false), s')).
Proof.
  destruct m as [[|]|], hw, p as [[|] [|] [|] [|]]; cbn;
    (split; [reflexivity|]);
    (split; [split; [try discriminate; intros _; repeat split; congruence
                    | intros (H1 & H2 & H3 & H4 & H5);
                      try discriminate; try congruence]|]);
    (split; [try discriminate; intros _; reflexivity|]);
    try discriminate;
    intros _; eexists; (split; [vm_compute; reflexivity|]);
    repeat split.
Qed.

End TouchTotal.

(** ** The button on every interleaving of edges and loop turns *)

Section ButtonRuns.
Import ButtonInput.

Lemma step_potential (a : action) (s : state) :
  (shorts (trace (snd (step a s))) + longs (trace (snd (step a s)))
   + pending (snd (step a s))
   <= shorts (trace s) + longs (trace s) + pending s
      + if is_press a then 1 else 0)%nat.
Proof.
  destruct s as [thr ps latch run sh lo tr].
  destruct a as [now|now|now p].
  - unfold step, _on_button_pressed, bind, modify. cbn -[shorts longs].
    destruct ps, latch; cbn; lia.
  - unfold step, _on_button_released, call, try_except.
    unfold bind, modify, get, ret, raise. cbn -[shorts longs].
    destruct ps as [t0|]; cbn -[shorts longs]; [|lia].
    destruct latch; cbn -[shorts longs]; [lia|].
    destruct (now - t0 <? thr); cbn -[shorts longs]; [|lia].
    destruct sh as [[|e]|]; cbn -[shorts longs];
      [| destruct (is_Exception e); cbn -[shorts longs] |];
      rewrite ?shorts_snoc, ?longs_snoc; cbn -[shorts longs]; lia.
  - unfold step, monitor_pass, monitor_body, call, try_except.
    unfold bind, modify, get, ret, raise. cbn -[shorts longs].
    destruct run; cbn -[shorts longs]; [|lia].
    destruct ps as [t0|]; cbn -[shorts longs];
      [|rewrite ?shorts_snoc, ?longs_snoc; cbn -[shorts longs]; lia].
    destruct latch; cbn -[shorts longs];
      [rewrite ?shorts_snoc, ?longs_snoc; cbn -[shorts longs]; lia|].
    destruct ((now - t0 >=? thr) && p); cbn -[shorts longs];
      [|rewrite ?shorts_snoc, ?longs_snoc; cbn -[shorts longs]; lia].
    destruct lo as [[|e]|]; cbn -[shorts longs];
      [| destruct (is_Exception e); cbn -[shorts longs] |];
      rewrite ?shorts_snoc, ?longs_snoc; cbn -[shorts longs]; lia.
Qed.

Lemma presses_cons (a : action) (l : list action) :
  presses (a :: l) = ((if is_press a then 1 else 0) + presses l)%nat.
Proof. destruct a; reflexivity. Qed.

(** X5: whatever the order of press edges, release edges and turns of
    the monitoring loop (edges that bounce, turns that come late, a
    callback that raises), the callbacks are invoked at most once per
    press edge: their number grows by no more than the number of press
    edges, plus one if a press was under way that had fired nothing. *)
Theorem callbacks_bounded_by_presses (l : list action) (s : state) :
  let s' := snd (run l s) in
  (shorts (trace s') + longs (trace s') + pending s'
   <= shorts (trace s) + longs (trace s) + pending s + presses l)%nat.
Proof.
  revert s. unfold run.
  induction l as [|a l IH]; intros s; cbn -[shorts longs pending presses].
  - unfold presses. cbn. lia.
  - pose proof (step_potential a s) as Ha. rewrite presses_cons.
    unfold bind. destruct (step a s) as [[[]|e|] s1]; cbn [snd] in *.
    + specialize (IH s1). cbn -[shorts longs pending presses] in IH. lia.
    + lia.
    + lia.
Qed.

Lemma step_not_running (a : action) (s : state) :
  running s = false ->
  running (snd (step a s)) = false /\
  longs (trace (snd (step a s))) = longs (trace s).
Proof.
  destruct s as [thr ps latch run sh lo tr]. cbn [running]. intros ->.
  destruct a as [now|now|now p].
  - split; reflexivity.
  - unfold step, _on_button_released, call, try_except.
    unfold bind, modify, get, ret, raise. cbn -[shorts longs].
    destruct ps as [t0|]; cbn -[shorts longs]; [|auto].
    destruct latch; cbn -[shorts longs]; [auto|].
    destruct (now - t0 <? thr); cbn -[shorts longs]; [|auto].
    destruct sh as [[|e]|]; cbn -[shorts longs];
      [| destruct (is_Exception e); cbn -[shorts longs] |];
      rewrite ?longs_snoc; cbn -[shorts longs]; split; auto; lia.
  - split; reflexivity.
Qed.

(** X6: a handler that is not running (never started, or stopped) never
    invokes the long-press callback, however long the button is held and
    whatever edges and turns of the loop come, in any order. *)
Theorem no_long_press_without_monitoring (l : list action) (s : state) :
  running s = false ->
  longs (trace (snd (run l s))) = longs (trace s).
Proof.
  revert s. unfold run. induction l as [|a l IH]; intros s Hr; cbn.
  - reflexivity.
  - destruct (step_not_running a s Hr) as [Hr1 Hl1].
    unfold bind. destruct (step a s) as [[[]|e|] s1]; cbn [snd] in *.
    + rewrite (IH s1 Hr1). exact Hl1.
    + exact Hl1.
    + exact Hl1.
Qed.

Lemma no_long_press_without_monitoring_witness :
  let s := init_state 2000 false (Some Returns) (Some Returns) in
  longs (trace (snd (run (cycle 0 [(1000, true); (3000, true)] 5000 []) s)))
  = longs (trace s).
Proof.
  intros s.
  apply (no_long_press_without_monitoring
           (cycle 0 [(1000, true); (3000, true)] 5000 []) s).
  reflexivity.
Defined.

End ButtonRuns.

(** ** The touch flag kept by the polling loop *)

Section TouchFlag.
Import TouchHandler.

Lemma irq_turn (r : reading) (s : state) :
  _flag s = 1 -> _running s = true ->
  handler_raises (on_error s) = None ->
  catchable r = true ->
  exists s1,
    (irq_body r ;;; modify (emit (Sleep (interval s)))) s = (Ok tt, s1) /\
    _flag s1 = 1 /\ _running s1 = true /\ on_error s1 = on_error s /\
    Touch s1 = seen [r] (Touch s).
Proof.
  destruct s as [run fl iv oe tch tr].
  cbn [_flag _running on_error Touch]. intros -> -> Hh Hc.
  unfold irq_body, handle_error, try_except.
  unfold bind, modify, get, ret, raise.
  destruct r as [v|e]; cbn.
  - destruct (v =? 0); cbn; eexists; repeat split.
  - cbn in Hc. rewrite Hc.
    destruct oe as [|[|x]]; [| |discriminate]; cbn; eexists; repeat split.
Qed.

(** X7: while the handler runs with the default error handler or one
    that returns, the touch flag after the loop is what the last pin read
    that answered says: touched when the line was low, not touched when it
    was high; a read that fails leaves the flag as it was, so [is_touched]
    keeps answering from the last good read.  A handler that was stopped
    takes no turn and reads nothing. *)
Theorem irq_loop_tracks_last_good_reading
    (readings : list reading) (s : state) :
  _flag s = 1 -> _running s = true ->
  handler_raises (on_error s) = None ->
  forallb catchable readings = true ->
  (exists s',
     _irq_loop readings s = (Ok (length readings), s') /\
     Touch s' = seen readings (Touch s) /\
     is_touched s' = (seen readings (Touch s) =? 1)) /\
  _irq_loop readings (stop s) = (Ok O, stop s).
Proof.
  intros Hf Hr Hh Hc. split.
  - revert s Hf Hr Hh Hc.
    induction readings as [|r rest IH]; intros s Hf Hr Hh Hc.
    + exists s. repeat split.
    + cbn [forallb] in Hc. apply andb_prop in Hc as [Hc1 Hc2].
      destruct (irq_turn r s Hf Hr Hh Hc1) as (s1 & E1 & Hf1 & Hr1 & Ho1 & Ht1).
      destruct (IH s1 Hf1 Hr1) as (s2 & E2 & Ht2 & Hi2);
        [congruence | exact Hc2 |].
      assert (Hseen : seen (r :: rest) (Touch s) = seen rest (Touch s1)).
      { rewrite Ht1. destruct r; reflexivity. }
      rewrite <- Hseen in Ht2, Hi2.
      exists s2.
      cbn [_irq_loop length]. unfold bind at 1, get at 1.
      rewrite Hf, Hr. cbn [Z.eqb Pos.eqb andb].
      unfold bind at 1. unfold bind at 1 in E1.
      destruct (irq_body r s) as [[[]|e|] s0] eqn:Eb; try discriminate.
      unfold bind at 1.
      destruct (modify (emit (Sleep (interval s))) s0) as [[[]|e|] s0'] eqn:Em;
        try discriminate.
      injection E1 as <-.
      unfold bind at 1. rewrite E2.
      split; [reflexivity|]. split; assumption.
  - destruct s as [run fl iv oe tch tr]. cbn in Hr. subst run.
    destruct readings; reflexivity.
Qed.

Lemma irq_loop_tracks_last_good_reading_witness :
  let readings := [Level 1; Level 0; Fails OSError; Fails OSError] in
  exists s',
    _irq_loop readings (started None) = (Ok 4%nat, s') /\
    is_touched s' = true.
Proof.
  intros readings.
  destruct (irq_loop_tracks_last_good_reading readings (started None)
              eq_refl eq_refl eq_refl eq_refl)
    as ((s' & E & _ & Hi) & _).
  exists s'. split; [exact E | exact Hi].
Defined.

End TouchFlag.

(** ** The V3 driver over sequences of calls *)

Section DisplayV3Sessions.
Import EPD_V3.





















(** In mock mode each call only sleeps. *)
Lemma mock_perform (fuel : nat) (op : operation) (s : state) :
  mock_mode s = true ->
  exists v evs ms,
    perform fuel op s = (Ok v, advance evs ms 0 s) /\
    forallb is_sleep evs = true /\
    (forall mode, op = OpInit mode -> v = PyInt 0).
Proof.
  intros Hm.
  destruct op as [mode|color|buf|buf|]; cbn [perform];
    unfold init, Clear, displayPartial, displayPartBaseImage, deep_sleep, sleep;
    unfold bind, modify, get, ret; cbv beta iota; rewrite Hm; cbv beta iota;
    rewrite ?sleep_advance.
  - exists (PyInt 0), [Sleep 100], 100. repeat split.
  - exists PyNone, [Sleep 100], 100. repeat split. discriminate.
  - exists PyNone, [Sleep 50], 50. repeat split. discriminate.
  - exists PyNone, [Sleep 50], 50. repeat split. discriminate.
  - exists PyNone, [], 0. rewrite advance_0. repeat split. discriminate.
Qed.

(** X9: a driver in mock mode stays in mock mode and never touches the
    hardware: every sequence of calls returns, whatever the fuel of the
    busy loop (which is not entered), no GPIO pin is written or read and
    nothing is sent over SPI; the calls only sleep. *)
Theorem mock_session_only_sleeps
    (fuel : nat) (ops : list operation) (s : state) :
  mock_mode s = true ->
  exists evs ms,
    session fuel ops s = (Ok tt, advance evs ms 0 s) /\
    forallb is_sleep evs = true /\
    spi_payloads evs = [] /\
    mock_mode (advance evs ms 0 s) = true.
Proof.
  revert s. unfold session.
  induction ops as [|op ops IH]; intros s Hm; cbn [for_each].
  - exists [], 0. rewrite advance_0. repeat split. exact Hm.
  - destruct (mock_perform fuel op s Hm) as (v & e1 & ms1 & E1 & S1 & _).
    destruct (IH (advance e1 ms1 0 s) Hm) as (e2 & ms2 & E2 & S2 & P2 & M2).
    exists (e1 ++ e2), (ms1 + ms2).
    unfold bind at 1. unfold bind at 1. rewrite E1. unfold ret at 1.
    rewrite E2, advance_advance.
    split; [reflexivity|].
    split; [rewrite forallb_app, S1, S2; reflexivity|].
    split; [|exact Hm].
    rewrite v3_payloads_app, P2, app_nil_r.
    clear -S1. induction e1 as [|e e1 IHe]; [reflexivity|].
    cbn in S1. apply andb_prop in S1 as [He S1].
    destruct e; try discriminate. cbn. apply IHe, S1.
Qed.

Lemma mock_session_witness :
  let s := init_state true (fun _ => 1) 0 in
  exists evs ms,
    session 0 [OpInit PART_UPDATE; OpClear 0; OpDisplayPartBaseImage [1; 2]] s
    = (Ok tt, advance evs ms 0 s) /\
    forallb is_sleep evs = true /\
    spi_payloads evs = [] /\
    mock_mode (advance evs ms 0 s) = true.
Proof.
  intros s.
  apply (mock_session_only_sleeps 0 _ s). reflexivity.
Defined.



End DisplayV3Sessions.

(** ** The V4 adapter: window, fill and the ways of showing an image *)

Section DisplayV4Window.
Import EPD_V4.

Lemma v4_byte_payloads_app (a b : list event) :
  byte_payloads (a ++ b) = byte_payloads a ++ byte_payloads b.
Proof. apply omap_app. Qed.


Lemma land_255 (a : Z) : Z.land a 0xFF = a mod 256.
Proof. change 0xFF with (Z.ones 8). rewrite Z.land_ones by lia. reflexivity. Qed.

Lemma linewidth_spec (w : Z) : 0 < w -> linewidth w = (w - 1) / 8 + 1.
Proof.
  intros Hw. unfold linewidth, int_truediv.
  rewrite Z.quot_div_nonneg by lia.
  pose proof (Z.div_mod w 8 ltac:(lia)) as Hdm.
  pose proof (Z.mod_pos_bound w 8 ltac:(lia)) as Hb.
  destruct (Z.eqb_spec (w mod 8) 0) as [E|E].
  - assert (H : w - 1 = 8 * (w / 8 - 1) + 7) by lia.
    rewrite H. rewrite Z.mul_comm, Z.div_add_l by lia.
    change (7 / 8) with 0. lia.
  - assert (H : w - 1 = 8 * (w / 8) + (w mod 8 - 1)) by lia.
    rewrite H at 1. rewrite Z.mul_comm, Z.div_add_l by lia.
    rewrite (Z.div_small (w mod 8 - 1) 8) by lia. lia.
Qed.

Lemma set_window_run (x0 y0 x1 y1 : Z) (s : state) :
  SetWindow x0 y0 x1 y1 s =
  (Ok tt,
   advance (command_frame s 0x44
            ++ data_frame s (Z.land (Z.shiftr x0 3) 0xFF)
            ++ data_frame s (Z.land (Z.shiftr x1 3) 0xFF)
            ++ command_frame s 0x45
            ++ data_frame s (Z.land y0 0xFF)
            ++ data_frame s (Z.land (Z.shiftr y0 8) 0xFF)
            ++ data_frame s (Z.land y1 0xFF)
            ++ data_frame s (Z.land (Z.shiftr y1 8) 0xFF)) 0 s).
Proof.
  unfold SetWindow.
  rewrite (bind_ok _ _ _ _ _ (v4_send_command 0x44 s)). cbv beta.
  rewrite (bind_ok _ _ _ _ _ (v4_send_data _ _)). cbv beta.
  rewrite (bind_ok _ _ _ _ _ (v4_send_data _ _)). cbv beta.
  rewrite (bind_ok _ _ _ _ _ (v4_send_command 0x45 _)). cbv beta.
  rewrite (bind_ok _ _ _ _ _ (v4_send_data _ _)). cbv beta.
  rewrite (bind_ok _ _ _ _ _ (v4_send_data _ _)). cbv beta.
  rewrite (bind_ok _ _ _ _ _ (v4_send_data _ _)). cbv beta.
  rewrite v4_send_data.
  rewrite !v4_advance_advance. reflexivity.
Qed.

Lemma set_cursor_run (x y : Z) (s : state) :
  SetCursor x y s =
  (Ok tt,
   advance (command_frame s 0x4E
            ++ data_frame s (Z.land x 0xFF)
            ++ command_frame s 0x4F
            ++ data_frame s (Z.land y 0xFF)
            ++ data_frame s (Z.land (Z.shiftr y 8) 0xFF)) 0 s).
Proof.
  unfold SetCursor.
  rewrite (bind_ok _ _ _ _ _ (v4_send_command 0x4E s)). cbv beta.
  rewrite (bind_ok _ _ _ _ _ (v4_send_data _ _)). cbv beta.
  rewrite (bind_ok _ _ _ _ _ (v4_send_command 0x4F _)). cbv beta.
  rewrite (bind_ok _ _ _ _ _ (v4_send_data _ _)). cbv beta.
  rewrite v4_send_data.
  rewrite !v4_advance_advance. reflexivity.
Qed.

(** X11: the RAM window that [init] and [displayPartial] select with
    [SetWindow(0, 0, width-1, height-1)] and the fill that [Clear] sends
    agree: the window runs over the byte columns 0..xe and the rows
    0..ye, each sent as bytes below 256 with [ye] split into a low and a
    high byte, and the single bulk transfer of [Clear] has exactly
    [(xe + 1) * (ye + 1)] bytes, all equal to the color. *)
Theorem clear_fills_the_window
    (fuel k : nat) (color : Z) (s : state) :
  0 < width s <= 2048 -> 0 < height s <= 65536 ->
  (k < fuel)%nat ->
  (forall j, (j < k)%nat -> pin_in s (pin_reads s + j) = 1) ->
  pin_in s (pin_reads s + k) <> 1 ->
  exists xe yl yh s1 s2 fill,
    SetWindow 0 0 (width s - 1) (height s - 1) s = (Ok tt, s1) /\
    byte_payloads (trace s1)
    = byte_payloads (trace s)
      ++ [[0x44]; [0]; [xe]; [0x45]; [0]; [0]; [yl]; [yh]] /\
    0 <= xe < 256 /\ 0 <= yl < 256 /\ 0 <= yh < 256 /\
    yl + 256 * yh = height s - 1 /\
    Clear fuel color s = (Ok PyNone, s2) /\
    bulk_payloads (trace s2) = bulk_payloads (trace s) ++ [fill] /\
    Z.of_nat (length fill) = (xe + 1) * (yl + 256 * yh + 1) /\
    Forall (fun b => b = color) fill.
Proof.
  intros Hw Hh Hf Hbusy Hidle.
  exists ((width s - 1) / 8), ((height s - 1) mod 256),
         ((height s - 1) / 256).
  eexists _, _, (py_repeat color (height s * linewidth (width s))).
  assert (Hxe : 0 <= (width s - 1) / 8 < 256).
  { split; [apply Z.div_pos; lia | apply Z.div_lt_upper_bound; lia]. }
  assert (Hyh : 0 <= (height s - 1) / 256 < 256).
  { split; [apply Z.div_pos; lia | apply Z.div_lt_upper_bound; lia]. }
  pose proof (Z.mod_pos_bound (height s - 1) 256 ltac:(lia)) as Hyl.
  pose proof (Z.div_mod (height s - 1) 256 ltac:(lia)) as Hdm.
  split; [apply set_window_run|].
  split.
  { cbn [trace advance]. rewrite !v4_byte_payloads_app. cbn.
    rewrite !land_255, !Z.shiftr_div_pow2 by lia.
    change (2 ^ 3) with 8. change (2 ^ 8) with 256.
    change (0 / 8) with 0. change (0 mod 256) with 0.
    rewrite (Z.mod_small ((width s - 1) / 8) 256) by lia.
    rewrite (Z.mod_small ((height s - 1) / 256) 256) by lia.
    reflexivity. }
  split; [exact Hxe|]. split; [lia|]. split; [exact Hyh|].
  split; [lia|].
  split; [apply (v4_clear fuel k); assumption|].
  split.
  { cbn [trace advance]. rewrite !v4_payloads_app, v4_busy_wait_no_bulk.
    cbn. reflexivity. }
  split.
  { unfold py_repeat. rewrite length_replicate.
    rewrite linewidth_spec by lia. rewrite Z2Nat.id by nia. nia. }
  unfold py_repeat. apply Forall_forall. intros b Hb.
  apply elem_of_replicate in Hb. apply Hb.
Qed.

Lemma clear_fills_the_window_witness :
  let s := init_state 17 25 24 8 (fun _ => 0) in
  exists xe yl yh s1 s2 fill,
    SetWindow 0 0 (width s - 1) (height s - 1) s = (Ok tt, s1) /\
    byte_payloads (trace s1)
    = byte_payloads (trace s)
      ++ [[0x44]; [0]; [xe]; [0x45]; [0]; [0]; [yl]; [yh]] /\
    0 <= xe < 256 /\ 0 <= yl < 256 /\ 0 <= yh < 256 /\
    yl + 256 * yh = height s - 1 /\
    Clear 1 0xFF s = (Ok PyNone, s2) /\
    bulk_payloads (trace s2) = bulk_payloads (trace s) ++ [fill] /\
    Z.of_nat (length fill) = (xe + 1) * (yl + 256 * yh + 1) /\
    Forall (fun b => b = 0xFF) fill.
Proof.
  intros s.
  apply (clear_fills_the_window 1 0 0xFF s);
    [cbn; lia | cbn; lia | lia | intros j Hj; lia | cbn; discriminate].
Defined.

Lemma v4_send_command_at (c : Z) (evs : list event) (r : nat) (s : state) :
  send_command c (advance evs r s)
  = (Ok tt, advance (evs ++ command_frame s c) r s).
Proof.
  rewrite v4_send_command, v4_advance_advance, Nat.add_0_r. reflexivity.
Qed.

Lemma v4_send_data_at (d : Z) (evs : list event) (r : nat) (s : state) :
  send_data d (advance evs r s)
  = (Ok tt, advance (evs ++ data_frame s d) r s).
Proof.
  rewrite v4_send_data, v4_advance_advance, Nat.add_0_r. reflexivity.
Qed.

Lemma v4_send_data2_at (l : list Z) (evs : list event) (r : nat) (s : state) :
  send_data2 l (advance evs r s)
  = (Ok tt, advance (evs ++ bulk_frame s l) r s).
Proof.
  rewrite v4_send_data2, v4_advance_advance, Nat.add_0_r. reflexivity.
Qed.

Lemma v4_digital_write_at (p v : Z) (evs : list event) (r : nat) (s : state) :
  digital_write p v (advance evs r s)
  = (Ok tt, advance (evs ++ [DigitalWrite p v]) r s).
Proof.
  unfold digital_write, modify, advance, emit. cbn.
  rewrite <- app_assoc. reflexivity.
Qed.

Lemma v4_delay_ms_at (ms : Z) (evs : list event) (r : nat) (s : state) :
  delay_ms ms (advance evs r s)
  = (Ok tt, advance (evs ++ [DelayMs ms]) r s).
Proof.
  unfold delay_ms, modify, advance, emit. cbn.
  rewrite <- app_assoc. reflexivity.
Qed.

Lemma set_window_at (x0 y0 x1 y1 : Z) (evs : list event) (r : nat)
    (s : state) :
  SetWindow x0 y0 x1 y1 (advance evs r s) =
  (Ok tt,
   advance (evs ++ command_frame s 0x44
            ++ data_frame s (Z.land (Z.shiftr x0 3) 0xFF)
            ++ data_frame s (Z.land (Z.shiftr x1 3) 0xFF)
            ++ command_frame s 0x45
            ++ data_frame s (Z.land y0 0xFF)
            ++ data_frame s (Z.land (Z.shiftr y0 8) 0xFF)
            ++ data_frame s (Z.land y1 0xFF)
            ++ data_frame s (Z.land (Z.shiftr y1 8) 0xFF)) r s).
Proof.
  rewrite set_window_run, v4_advance_advance, Nat.add_0_r. reflexivity.
Qed.

Lemma set_cursor_at (x y : Z) (evs : list event) (r : nat) (s : state) :
  SetCursor x y (advance evs r s) =
  (Ok tt,
   advance (evs ++ command_frame s 0x4E
            ++ data_frame s (Z.land x 0xFF)
            ++ command_frame s 0x4F
            ++ data_frame s (Z.land y 0xFF)
            ++ data_frame s (Z.land (Z.shiftr y 8) 0xFF)) r s).
Proof.
  rewrite set_cursor_run, v4_advance_advance, Nat.add_0_r. reflexivity.
Qed.

Lemma ReadBusy_now_at (fuel : nat) (evs : list event) (r : nat) (s : state) :
  (1 <= fuel)%nat -> pin_in s (pin_reads s + r) <> 1 ->
  ReadBusy fuel (advance evs r s)
  = (Ok PyNone,
     advance (evs ++ [DigitalRead (busy_pin s)]) (r + 1) s).
Proof.
  intros Hf Hidle. destruct fuel as [|n]; [lia|]. rewrite ReadBusy_S.
  cbn [pin_in pin_reads advance busy_pin].
  destruct (Z.eqb_spec (pin_in s (pin_reads s + r)) 1); [contradiction|].
  rewrite v4_advance_advance. reflexivity.
Qed.


Ltac v4_at :=
  first
    [ rewrite (bind_ok _ _ _ _ _ (v4_send_command_at _ _ _ _))
    | rewrite (bind_ok _ _ _ _ _ (v4_send_data_at _ _ _ _))
    | rewrite (bind_ok _ _ _ _ _ (v4_send_data2_at _ _ _ _))
    | rewrite (bind_ok _ _ _ _ _ (v4_digital_write_at _ _ _ _ _))
    | rewrite (bind_ok _ _ _ _ _ (v4_delay_ms_at _ _ _ _))
    | rewrite (bind_ok _ _ _ _ _ (set_window_at _ _ _ _ _ _ _))
    | rewrite (bind_ok _ _ _ _ _ (set_cursor_at _ _ _ _ _)) ];
  cbv beta.





Lemma reset_run (s : state) :
  reset s =
  (Ok tt,
   advance [DigitalWrite (reset_pin s) 1; DelayMs 20;
            DigitalWrite (reset_pin s) 0; DelayMs 2;
            DigitalWrite (reset_pin s) 1; DelayMs 20] 0 s).
Proof.
  unfold reset, digital_write, delay_ms.
  unfold bind, modify, get, advance, emit. cbn.
  rewrite <- !app_assoc, Nat.add_0_r. reflexivity.
Qed.

(** X13: [init] of the V4 adapter.  When [epdconfig.module_init()] does
    not return 0 it returns -1 at once: no pin is written or read and
    nothing is sent.  Otherwise it waits for the busy line three times:
    with a line that is idle it returns 0 after three reads, and with a
    line that stays busy it does not return, there being no deadline. *)
Theorem v4_init_outcomes (fuel : nat) (module_init : Z) (s : state) :
  (module_init <> 0 ->
     init fuel module_init s = (Ok (PyInt (-1)), s)) /\
  (module_init = 0 -> (1 <= fuel)%nat ->
     (forall n, pin_in s n <> 1) ->
     exists s',
       init fuel module_init s = (Ok (PyInt 0), s') /\
       pin_reads s' = (pin_reads s + 3)%nat /\
       bulk_payloads (trace s') = bulk_payloads (trace s)) /\
  (module_init = 0 ->
     (forall j, pin_in s (pin_reads s + j) = 1) ->
     fst (init fuel module_init s) = OutOfFuel).
Proof.
  split; [|split].
  - intros Hm. unfold init.
    destruct (Z.eqb_spec module_init 0); [contradiction|]. reflexivity.
  - intros -> Hf Hidle. unfold init. cbn [Z.eqb negb].
    rewrite (bind_ok _ _ _ _ _ (reset_run s)). cbv beta.
    rewrite (bind_ok _ _ _ _ _ (ReadBusy_now_at fuel _ _ _ Hf (Hidle _))).
    cbv beta. v4_at.
    rewrite (bind_ok _ _ _ _ _ (ReadBusy_now_at fuel _ _ _ Hf (Hidle _))).
    cbv beta. do 6 v4_at.
    unfold bind at 1, get at 1.
    cbn [width height advance].
    do 9 v4_at.
    rewrite (bind_ok _ _ _ _ _ (ReadBusy_now_at fuel _ _ _ Hf (Hidle _))).
    cbv beta. unfold ret.
    eexists. split; [reflexivity|].
    cbn [pin_reads trace advance]. split; [lia|].
    rewrite !v4_payloads_app. cbn. rewrite ?app_nil_r. reflexivity.
  - intros -> Hbusy. unfold init. cbn [Z.eqb negb].
    rewrite (bind_ok _ _ _ _ _ (reset_run s)). cbv beta.
    unfold bind at 1.
    pose proof (ReadBusy_stuck fuel (advance
      [DigitalWrite (reset_pin s) 1; DelayMs 20;
       DigitalWrite (reset_pin s) 0; DelayMs 2;
       DigitalWrite (reset_pin s) 1; DelayMs 20] 0 s)) as Hstuck.
    destruct (ReadBusy fuel _) as [[v|e|] s1]; cbn [fst] in *.
    + discriminate Hstuck. intros j. cbn. rewrite Nat.add_0_r. apply Hbusy.
    + discriminate Hstuck. intros j. cbn. rewrite Nat.add_0_r. apply Hbusy.
    + reflexivity.
Qed.

Lemma v4_init_outcomes_witness :
  let s := init_state 17 25 24 8 (fun _ => 0) in
  init 1 7 s = (Ok (PyInt (-1)), s) /\
  (exists s', init 1 0 s = (Ok (PyInt 0), s') /\
              pin_reads s' = (pin_reads s + 3)%nat /\
              bulk_payloads (trace s') = bulk_payloads (trace s)).
Proof.
  intros s. split.
  - apply (v4_init_outcomes 1 7 s). discriminate.
  - apply (v4_init_outcomes 1 0 s); [reflexivity | lia | intros n; discriminate].
Defined.

End DisplayV4Window.

(** ** The input handler factory *)

Section Factory.
Import InputHandler.

(** X14: the factory builds a touch handler exactly when both [gt] and
    [gt_dev] are given, whatever [gt_old], [gpio_pin] and the
    configuration are; then the configuration is handed on unread.  A
    configuration that enables touch never yields a touch handler by
    itself, also when [detect_input_mode] answers touch for it. *)
Theorem factory_builds_touch_only_from_touch_objects
    (config : value) (gt gt_dev gt_old : bool) (gpio_pin : option Z) :
  (is_touch (create_input_handler config gt gt_dev gt_old gpio_pin) = true
   <-> gt && gt_dev = true) /\
  (gt && gt_dev = true ->
   create_input_handler config gt gt_dev gt_old gpio_pin
   = Some (TouchInputHandler gt_old config)) /\
  (detect_input_mode config = Some "touch" ->
   is_touch (create_input_handler config false false gt_old gpio_pin) = false).
Proof.
  assert (Hno : forall o, is_touch
            (create_input_handler config false false o gpio_pin) = false).
  { intros o. unfold create_input_handler. cbn [andb].
    destruct (truthy config); [|destruct gpio_pin; reflexivity].
    destruct (get config "hardware" (VDict DNil)) as [hw|]; [|reflexivity].
    cbn. destruct (get hw "touch" (VDict DNil)) as [tc|]; [|reflexivity].
    cbn. destruct (get tc "enabled" (VBool false)) as [te|]; [|reflexivity].
    cbn. destruct (get hw "button" (VDict DNil)) as [bc|]; [|reflexivity].
    cbn. destruct (get bc "enabled" (VBool true)) as [be|]; [|reflexivity].
    cbn. destruct (truthy be); [|destruct gpio_pin; reflexivity].
    destruct (get bc "gpio_pin" _); [|reflexivity]. cbn.
    destruct (get bc "long_press_threshold" _); [|reflexivity]. cbn.
    destruct (get bc "bounce_time" _); [|reflexivity]. cbn.
    destruct (get bc "pull_up" _); reflexivity. }
  split; [|split].
  - destruct gt, gt_dev; cbn [andb];
      try (split; [intros H | discriminate]);
      try (rewrite Hno in H; discriminate H).
    + split; reflexivity.
    + unfold create_input_handler in H. cbn [andb] in H.
      change (is_touch (create_input_handler config false false gt_old gpio_pin)
              = true) in H.
      rewrite Hno in H. discriminate H.
    + unfold create_input_handler in H. cbn [andb] in H.
      change (is_touch (create_input_handler config false false gt_old gpio_pin)
              = true) in H.
      rewrite Hno in H. discriminate H.
  - intros H. unfold create_input_handler. rewrite H. reflexivity.
  - intros _. apply Hno.
Qed.



End Factory.
